(** * Restoring a simulation state from an ECLIPSE restart file

    A shallow embedding of [opm/output/eclipse/EclipseReader.cpp]:
    [restoreSOLUTION], [restoreOPM_XWEL] and [init_from_restart_file],
    followed by the properties of the reader that its specification
    states.

    Conventions of the embedding.
    - C++ [int] values (cell, well and phase counts, record sizes, report
      steps) are integers in [Z].  The one product the reader computes,
      [num_wells * num_phases], is an offset into a record: when it leaves
      the record the call is out of bounds, and inside the record it is
      below the record's size, itself an [int].
    - A [const T*] into a record's buffer is an offset (in elements) from
      the start of that buffer; a pointer range [first, last) handed to a
      [std::vector<double>] constructor is read with [vector_from_range],
      which reports a range that leaves the buffer.
    - Every way a call can end is a [result]: a value, a thrown
      [std::runtime_error], an abort inside the record library, or a read
      outside a buffer. *)

From Stdlib Require Import ZArith String List Bool Lia.
From stdpp Require Import base option list strings gmap fin_maps pretty.

Open Scope Z_scope.

(** ** Outcomes *)

(** How a call ends without a value.  [runtime_error] is the only
    exception this file throws; the two aborts are raised by the record
    library (it stops the process when asked for a record it does not have,
    or for a buffer at another element type than the record's);
    [out_of_bounds] stands for the undefined behaviour of forming or
    reading a pointer range that is not inside its buffer. *)
Inductive failure : Type :=
| runtime_error (what : string)
| abort_no_such_kw (kw : string)
| abort_wrong_type (kw : string)
| out_of_bounds.

Inductive result (A : Type) : Type :=
| Ok (a : A)
| Fail (f : failure).

Arguments Ok {A} a.
Arguments Fail {A} f.

#[global] Instance result_ret : MRet result := @Ok.

#[global] Instance result_bind : MBind result :=
  λ A B (k : A → result B) (m : result A),
    match m with
    | Ok a => k a
    | Fail f => Fail f
    end.

(** C++ [throw std::runtime_error( msg )]. *)
Definition throw {A : Type} (msg : string) : result A :=
  Fail (runtime_error msg).

(** ** Collaborators declared outside this file *)

Module conversions.

(** Modelled from the spec: the enumeration [conversions::dim] of
    [opm/parser/eclipse/Units/ConversionFactors.hpp] is not part of the
    sources; only the two dimensions the reader uses are listed. *)
Inductive dim : Type := pressure | temperature.

End conversions.

(** Modelled from the spec: [UnitSystem::UnitType] is declared in the
    parser library; the specification describes it as a closed enumeration
    of unit systems with METRIC, FIELD and at least one further member
    (LAB). *)
Inductive UnitType : Type :=
| UNIT_TYPE_METRIC
| UNIT_TYPE_FIELD
| UNIT_TYPE_LAB.

#[global] Instance UnitType_eq_dec : EqDecision UnitType.
Proof. solve_decision. Defined.

(** The parts of [EclipseState] that [init_from_restart_file] asks for,
    each under the name of its getter. *)
Record InitConfig : Type := {
  getRestartStep : Z;
  getRestartRootName : string
}.

Record IOConfig : Type := {
  getRestartFileName : string → Z → bool → string;
  getUNIFIN : bool
}.

Record Schedule : Type := { numWells : Z → Z }.

Record TableManager : Type := { getNumPhases : Z }.

Record UnitSystem : Type := { getType : UnitType }.

Record EclipseState : Type := {
  getInitConfig : InitConfig;
  getIOConfig : IOConfig;
  getSchedule : Schedule;
  getTableManager : TableManager;
  getDeckUnitSystem : UnitSystem
}.

Module data.

Module Solution.

(** Modelled from the spec: [data::Solution::key] of
    [opm/output/Cells.hpp], the field kinds of a Solution. *)
Inductive key : Type := PRESSURE | TEMP | SWAT | SGAS | RS | RV.

#[global] Instance key_eq_dec : EqDecision key.
Proof. solve_decision. Defined.

Definition key_index (k : key) : nat :=
  match k with
  | PRESSURE => 0 | TEMP => 1 | SWAT => 2 | SGAS => 3 | RS => 4 | RV => 5
  end%nat.

Definition key_of_index (n : nat) : key :=
  match n with
  | 0 => PRESSURE | 1 => TEMP | 2 => SWAT | 3 => SGAS | 4 => RS | _ => RV
  end%nat.

#[global] Instance key_countable : Countable key.
Proof.
  apply (inj_countable' key_index key_of_index).
  intros []; reflexivity.
Defined.

End Solution.

(** Modelled from the spec: [data::Wells] of [opm/output/Wells.hpp], the
    bundle of five sequences, in the order in which
    [restoreOPM_XWEL] initialises them.  The member initialised with an
    empty [{}] in front of them is left out: the reader never fills it. *)
Record Wells (V : Type) : Type := {
  bhp : list V;
  perf_pressure : list V;
  perf_rate : list V;
  temperature : list V;
  well_rate : list V
}.

Arguments bhp {V} _.
Arguments perf_pressure {V} _.
Arguments perf_rate {V} _.
Arguments temperature {V} _.
Arguments well_rate {V} _.

End data.

(** ** The reader *)

Section EclipseReader.

(** Single- and double-precision values, and the widening that C++
    applies when a [std::vector<double>] is built from a [const float*]
    range. *)
Context {cfloat cdouble : Type}.
Variable float_to_double : cfloat → cdouble.

(** [conversions::to_si], [conversions::metric2si] and
    [conversions::field2si] of the parser library. *)
Context {conv_table : Type}.
Variable to_si : conv_table → conversions.dim → cdouble → cdouble.
Variable metric2si : conv_table.
Variable field2si : conv_table.

(** *** The record store (ert/ecl) *)

(** A record: its eight-character header and a buffer of elements of one
    type. *)
Inductive ecl_data : Type :=
| ECL_FLOAT (xs : list cfloat)
| ECL_DOUBLE (xs : list cdouble).

Record ecl_kw_type : Type := {
  ecl_kw_get_header : string;
  ecl_kw_get_data : ecl_data
}.

(** An open file, seen through its active view: the records in file
    order. *)
Abbreviation ecl_file_type := (list ecl_kw_type).

(** The occurrences of a name in the active view, in file order. *)
Definition named_kws (file : ecl_file_type) (name : string) : list ecl_kw_type :=
  filter (λ k, ecl_kw_get_header k = name) file.

Definition ecl_file_has_kw (file : ecl_file_type) (name : string) : bool :=
  match named_kws file name with
  | [] => false
  | _ :: _ => true
  end.

Definition ecl_file_iget_named_kw (file : ecl_file_type) (name : string) (ith : nat)
  : result ecl_kw_type :=
  match named_kws file name !! ith with
  | Some k => Ok k
  | None => Fail (abort_no_such_kw name)
  end.

Definition ecl_kw_get_size (k : ecl_kw_type) : Z :=
  match ecl_kw_get_data k with
  | ECL_FLOAT xs => Z.of_nat (length xs)
  | ECL_DOUBLE xs => Z.of_nat (length xs)
  end.

Definition ecl_kw_get_float_ptr (k : ecl_kw_type) : result (list cfloat) :=
  match ecl_kw_get_data k with
  | ECL_FLOAT xs => Ok xs
  | ECL_DOUBLE _ => Fail (abort_wrong_type (ecl_kw_get_header k))
  end.

Definition ecl_kw_get_double_ptr (k : ecl_kw_type) : result (list cdouble) :=
  match ecl_kw_get_data k with
  | ECL_DOUBLE xs => Ok xs
  | ECL_FLOAT _ => Fail (abort_wrong_type (ecl_kw_get_header k))
  end.

(** The raw values of the first record under a name, fetched at single
    and at double precision. *)
Definition record_floats (file : ecl_file_type) (name : string)
  : result (list cfloat) :=
  ecl_file_iget_named_kw file name 0 ≫= ecl_kw_get_float_ptr.

Definition record_doubles (file : ecl_file_type) (name : string)
  : result (list cdouble) :=
  ecl_file_iget_named_kw file name 0 ≫= ecl_kw_get_double_ptr.

(** [ecl_file_open]: the file behind a path, if there is one. *)
Variable ecl_file_open : string → option ecl_file_type.

(** [ecl_file_select_rstblock_report_step]: [Some v] when the call returns
    true and has narrowed the active view to [v], the block of the report
    step; [None] when it returns false. *)
Variable ecl_file_select_rstblock_report_step :
  ecl_file_type → Z → option ecl_file_type.

(** *** Pointer ranges *)

(** [std::vector<double>( first, last )] over a buffer, with [first] and
    [last] as offsets from the start of the buffer and [conv] the
    conversion of one element to [double]. *)
Definition vector_from_range {A : Type} (conv : A → cdouble) (buf : list A)
    (first last : Z) : result (list cdouble) :=
  if (0 <=? first) && (first <=? last) && (last <=? Z.of_nat (length buf))
  then Ok (conv <$> take (Z.to_nat (last - first)) (drop (Z.to_nat first) buf))
  else Fail out_of_bounds.

(** *** restoreSOLUTION *)

Abbreviation Solution := (gmap data.Solution.key (list cdouble)).

Definition missing_keyword_message (key : string) : string :=
  "Read of restart file: File does not contain " +:+ key +:+ " data".

Definition mismatch_message (name : string) : string :=
  "Restart file: Could not restore " +:+ name +:+ ", mismatched number of cells".

(** The keys of the first loop, and the loop: one presence test per
    mandatory key, in order. *)
Definition mandatory_keys : list string := ["PRESSURE"; "TEMP"; "SWAT"; "SGAS"].

Fixpoint check_present (file : ecl_file_type) (keys : list string) : result unit :=
  match keys with
  | [] => Ok tt
  | key :: rest =>
      if negb (ecl_file_has_kw file key)
      then throw (missing_keyword_message key)
      else check_present file rest
  end.

(** The local [struct keyword]; [keyword_data] is the buffer that the
    [data] pointer points into. *)
Record keyword : Type := {
  keyword_kw : ecl_kw_type;
  keyword_size : Z;
  keyword_data : list cfloat;
  keyword_name : string
}.

(** Its constructor [keyword( file, nm )]. *)
Definition new_keyword (file : ecl_file_type) (nm : string) : result keyword :=
  kw ← ecl_file_iget_named_kw file nm 0;
  let size := ecl_kw_get_size kw in
  data ← ecl_kw_get_float_ptr kw;
  mret {| keyword_kw := kw; keyword_size := size;
          keyword_data := data; keyword_name := nm |}.

(** The second loop: one size test per mandatory record, in order. *)
Fixpoint check_sizes (kws : list keyword) (numcells : Z) : result unit :=
  match kws with
  | [] => Ok tt
  | kw :: rest =>
      if negb (keyword_size kw =? numcells)
      then throw (mismatch_message (keyword_name kw))
      else check_sizes rest numcells
  end.

(** The vector [{ kw.data, kw.data + kw.size }]. *)
Definition keyword_values (kw : keyword) : result (list cdouble) :=
  vector_from_range float_to_double (keyword_data kw) 0 (0 + keyword_size kw).

(** One optional keyword: copied under [k] when the file has it. *)
Definition restore_optional (file : ecl_file_type) (name : string)
    (k : data.Solution.key) (sol : Solution) : result Solution :=
  if ecl_file_has_kw file name then
    kw ← new_keyword file name;
    v ← keyword_values kw;
    mret (<[k := v]> sol)
  else mret sol.

Definition restoreSOLUTION (file : ecl_file_type) (numcells : Z)
    (conversion_table : conv_table) : result Solution :=
  _ ← check_present file mandatory_keys;
  pres ← new_keyword file "PRESSURE";
  temp ← new_keyword file "TEMP";
  swat ← new_keyword file "SWAT";
  sgas ← new_keyword file "SGAS";
  _ ← check_sizes [pres; temp; swat; sgas] numcells;
  let sol : Solution := ∅ in
  v ← keyword_values pres; let sol := <[data.Solution.PRESSURE := v]> sol in
  v ← keyword_values temp; let sol := <[data.Solution.TEMP := v]> sol in
  v ← keyword_values swat; let sol := <[data.Solution.SWAT := v]> sol in
  v ← keyword_values sgas; let sol := <[data.Solution.SGAS := v]> sol in
  let apply_pressure := λ x, to_si conversion_table conversions.pressure x in
  let apply_temperature := λ x, to_si conversion_table conversions.temperature x in
  let sol := alter (fmap apply_pressure) data.Solution.PRESSURE sol in
  let sol := alter (fmap apply_temperature) data.Solution.TEMP sol in
  sol ← restore_optional file "RS" data.Solution.RS sol;
  sol ← restore_optional file "RV" data.Solution.RV sol;
  mret sol.

(** The Solution that [restoreSOLUTION] holds when it reaches the optional
    keywords, from the raw values of the four mandatory records. *)
Definition mandatory_solution (conversion_table : conv_table)
    (pres temp swat sgas : list cfloat) : Solution :=
  <[data.Solution.SGAS := float_to_double <$> sgas]>
  (<[data.Solution.SWAT := float_to_double <$> swat]>
  (<[data.Solution.TEMP :=
       (λ x, to_si conversion_table conversions.temperature (float_to_double x))
       <$> temp]>
  (<[data.Solution.PRESSURE :=
       (λ x, to_si conversion_table conversions.pressure (float_to_double x))
       <$> pres]> ∅))).

(** *** restoreOPM_XWEL *)

(** [remaining / 2] on a signed distance is C++ division, which truncates
    towards zero: [÷].  The five vectors are built in the order of the
    initialiser list. *)
Definition restoreOPM_XWEL (file : ecl_file_type) (num_wells num_phases : Z)
  : result (data.Wells cdouble) :=
  let keyword := "OPM_XWEL" in
  xwel ← ecl_file_iget_named_kw file keyword 0;
  buf ← ecl_kw_get_double_ptr xwel;
  let xwel_data := 0 in
  let xwel_end := xwel_data + ecl_kw_get_size xwel in
  let bhp_begin := xwel_data in
  let bhp_end := bhp_begin + num_wells in
  let temp_begin := bhp_end in
  let temp_end := temp_begin + num_wells in
  let wellrate_begin := temp_end in
  let wellrate_end := wellrate_begin + (num_wells * num_phases) in
  let remaining := xwel_end - wellrate_end in
  let perf_elems := remaining ÷ 2 in
  let perfpres_begin := wellrate_end in
  let perfpres_end := perfpres_begin + perf_elems in
  let perfrate_begin := perfpres_end in
  let perfrate_end := perfrate_begin + perf_elems in
  v_bhp ← vector_from_range id buf bhp_begin bhp_end;
  v_perfpres ← vector_from_range id buf perfpres_begin perfpres_end;
  v_perfrate ← vector_from_range id buf perfrate_begin perfrate_end;
  v_temp ← vector_from_range id buf temp_begin temp_end;
  v_wellrate ← vector_from_range id buf wellrate_begin wellrate_end;
  mret {| data.bhp := v_bhp;
          data.perf_pressure := v_perfpres;
          data.perf_rate := v_perfrate;
          data.temperature := v_temp;
          data.well_rate := v_wellrate |}.

(** *** init_from_restart_file *)

(** The conversion table chosen for a deck unit system: the conditional
    expression on [getType() == UnitSystem::UNIT_TYPE_METRIC]. *)
Definition select_conv_table (u : UnitType) : conv_table :=
  if decide (u = UNIT_TYPE_METRIC) then metric2si else field2si.

(** The two elements of the returned braced list are evaluated left to
    right: [restoreSOLUTION] first, [restoreOPM_XWEL] after it. *)
Definition init_from_restart_file (es : EclipseState) (numcells : Z)
  : result (Solution * data.Wells cdouble) :=
  let initConfig := getInitConfig es in
  let ioConfig := getIOConfig es in
  let restart_step := getRestartStep initConfig in
  let restart_file_root := getRestartRootName initConfig in
  let output := false in
  let filename :=
    getRestartFileName ioConfig restart_file_root restart_step output in
  let unified := getUNIFIN ioConfig in
  let num_wells := numWells (getSchedule es) restart_step in
  let num_phases := getNumPhases (getTableManager es) in
  match ecl_file_open filename with
  | None => throw ("Restart file " +:+ filename +:+ " not found!")
  | Some file =>
      view ←
        (if unified then
           match ecl_file_select_rstblock_report_step file restart_step with
           | None =>
               throw ("Restart file " +:+ filename
                      +:+ " does not contain data for report step "
                      +:+ pretty restart_step +:+ "!")
           | Some block => mret block
           end
         else mret file);
      let conv_table :=
        select_conv_table (getType (getDeckUnitSystem es)) in
      sol ← restoreSOLUTION view numcells conv_table;
      wells ← restoreOPM_XWEL view num_wells num_phases;
      mret (sol, wells)
  end.

End EclipseReader.

(** ** A small concrete world

    Single-precision values are natural numbers, double-precision values
    are integers, a conversion table is a list of factors indexed by
    dimension.  The stores below are the inputs on which the properties
    are exercised. *)

Module Example.

Definition to_si (table : list Z) (d : conversions.dim) (x : Z) : Z :=
  x * nth (match d with conversions.pressure => 0 | conversions.temperature => 1 end)
          table 1.

Definition metric2si : list Z := [100000; 1].
Definition field2si : list Z := [6895; 2].

Definition float_kw (header : string) (xs : list nat) : @ecl_kw_type nat Z :=
  {| ecl_kw_get_header := header; ecl_kw_get_data := ECL_FLOAT xs |}.

Definition double_kw (header : string) (xs : list Z) : @ecl_kw_type nat Z :=
  {| ecl_kw_get_header := header; ecl_kw_get_data := ECL_DOUBLE xs |}.

(** Two cells, no optional record, a well record for two wells and three
    phases with two perforations. *)
Definition cells : list (@ecl_kw_type nat Z) :=
  [ float_kw "PRESSURE" [1; 2]%nat; float_kw "TEMP" [3; 4]%nat;
    float_kw "SWAT" [5; 6]%nat; float_kw "SGAS" [7; 8]%nat ].

Definition xwel14 : @ecl_kw_type nat Z :=
  double_kw "OPM_XWEL" [10; 11; 12; 13; 14; 15; 16; 17; 18; 19; 20; 21; 22; 23].

Definition store : list (@ecl_kw_type nat Z) := cells ++ [xwel14].

(** The same store with an RS record of three values: one more than there
    are cells. *)
Definition store_rs : list (@ecl_kw_type nat Z) :=
  store ++ [float_kw "RS" [9; 9; 9]%nat].

(** No SGAS record. *)
Definition store_no_sgas : list (@ecl_kw_type nat Z) :=
  [ float_kw "PRESSURE" [1; 2]%nat; float_kw "TEMP" [3; 4]%nat;
    float_kw "SWAT" [5; 6]%nat; xwel14 ].

(** A PRESSURE record of [n] values beside records of two values. *)
Definition store_pressure (n : nat) : list (@ecl_kw_type nat Z) :=
  [ float_kw "PRESSURE" (replicate n 1%nat); float_kw "TEMP" [3; 4]%nat;
    float_kw "SWAT" [5; 6]%nat; float_kw "SGAS" [7; 8]%nat; xwel14 ].

(** A well record of a single value. *)
Definition store_short_xwel : list (@ecl_kw_type nat Z) :=
  cells ++ [double_kw "OPM_XWEL" [10]].

(** A deck: restart step 3 read from a file of its own or from a unified
    file, in a given unit system. *)
Definition deck (unified : bool) (u : UnitType) : EclipseState :=
  {| getInitConfig := {| getRestartStep := 3; getRestartRootName := "CASE" |};
     getIOConfig :=
       {| getRestartFileName := λ root step _, root +:+ ".X" +:+ pretty step;
          getUNIFIN := unified |};
     getSchedule := {| numWells := λ _, 2 |};
     getTableManager := {| getNumPhases := 3 |};
     getDeckUnitSystem := {| getType := u |} |}.

(** The same deck under another root name and with another well count. *)
Definition deck_of (root : string) (nwells : Z) : EclipseState :=
  {| getInitConfig := {| getRestartStep := 3; getRestartRootName := root |};
     getIOConfig :=
       {| getRestartFileName := λ root step _, root +:+ ".X" +:+ pretty step;
          getUNIFIN := false |};
     getSchedule := {| numWells := λ _, nwells |};
     getTableManager := {| getNumPhases := 3 |};
     getDeckUnitSystem := {| getType := UNIT_TYPE_FIELD |} |}.

(** A file system holding [store] under the name of step 3. *)
Definition ecl_file_open (path : string) : option (list (@ecl_kw_type nat Z)) :=
  if decide (path = "CASE.X3") then Some store else None.

Definition ecl_file_select_rstblock_report_step
    (file : list (@ecl_kw_type nat Z)) (step : Z)
  : option (list (@ecl_kw_type nat Z)) :=
  if decide (step = 3) then Some file else None.

Definition init_from_restart_file :=
  init_from_restart_file Z.of_nat to_si metric2si field2si
    ecl_file_open ecl_file_select_rstblock_report_step.

(** What [store] restores to with the FIELD table. *)
Definition solution : gmap data.Solution.key (list Z) :=
  mandatory_solution Z.of_nat to_si field2si
    [1; 2]%nat [3; 4]%nat [5; 6]%nat [7; 8]%nat.

Definition wells : data.Wells Z :=
  {| data.bhp := [10; 11];
     data.perf_pressure := [20; 21];
     data.perf_rate := [22; 23];
     data.temperature := [12; 13];
     data.well_rate := [14; 15; 16; 17; 18; 19] |}.

End Example.

(** ** Properties *)

Section Properties.

Context {cfloat cdouble : Type}.
Variable float_to_double : cfloat → cdouble.
Context {conv_table : Type}.
Variable to_si : conv_table → conversions.dim → cdouble → cdouble.
Variable metric2si : conv_table.
Variable field2si : conv_table.
Variable ecl_file_open : string → option (list (@ecl_kw_type cfloat cdouble)).
Variable ecl_file_select_rstblock_report_step :
  list (@ecl_kw_type cfloat cdouble) → Z → option (list (@ecl_kw_type cfloat cdouble)).

Local Abbreviation ecl_kw := (@ecl_kw_type cfloat cdouble).
Local Abbreviation ecl_file_type := (list (@ecl_kw_type cfloat cdouble)).
Local Abbreviation Solution := (gmap data.Solution.key (list cdouble)).
Local Abbreviation init_from_restart_file' :=
  (init_from_restart_file float_to_double to_si metric2si field2si
     ecl_file_open ecl_file_select_rstblock_report_step).

(** *** The result monad *)

Lemma bind_Ok {A B : Type} (m : result A) (k : A → result B) (b : B) :
  m ≫= k = Ok b ↔ ∃ a, m = Ok a ∧ k a = Ok b.
Proof.
  destruct m as [a|f]; simpl.
  - split; [eauto | intros (a' & [= <-] & Hk); exact Hk].
  - split; [discriminate | intros (a' & [=] & _)].
Qed.

Lemma bind_ret {A : Type} (m : result A) : m ≫= (λ a, mret a) = m.
Proof. destruct m; reflexivity. Qed.

(** *** The record store *)

Lemma has_kw_iget (file : ecl_file_type) (name : string) :
  ecl_file_has_kw file name = true ↔
  ∃ k, ecl_file_iget_named_kw file name 0 = Ok k.
Proof.
  unfold ecl_file_has_kw, ecl_file_iget_named_kw.
  destruct (named_kws file name) as [|k rest]; simpl.
  - split; [discriminate | intros (k & [=])].
  - split; eauto.
Qed.

Lemma no_kw_iget (file : ecl_file_type) (name : string) :
  ecl_file_has_kw file name = false →
  ecl_file_iget_named_kw file name 0 = Fail (abort_no_such_kw name).
Proof.
  unfold ecl_file_has_kw, ecl_file_iget_named_kw.
  destruct (named_kws file name); [reflexivity | discriminate].
Qed.

Lemma record_floats_has_kw (file : ecl_file_type) (name : string) (xs : list cfloat) :
  record_floats file name = Ok xs → ecl_file_has_kw file name = true.
Proof.
  unfold record_floats. intros (k & Hk & _)%bind_Ok.
  apply has_kw_iget; eauto.
Qed.

Lemma float_ptr_size (k : ecl_kw) (xs : list cfloat) :
  ecl_kw_get_float_ptr k = Ok xs → ecl_kw_get_size k = Z.of_nat (length xs).
Proof.
  unfold ecl_kw_get_float_ptr, ecl_kw_get_size.
  destruct (ecl_kw_get_data k); [intros [= ->]; reflexivity | discriminate].
Qed.

Lemma double_ptr_size (k : ecl_kw) (xs : list cdouble) :
  ecl_kw_get_double_ptr k = Ok xs → ecl_kw_get_size k = Z.of_nat (length xs).
Proof.
  unfold ecl_kw_get_double_ptr, ecl_kw_get_size.
  destruct (ecl_kw_get_data k); [discriminate | intros [= ->]; reflexivity].
Qed.

(** *** Pointer ranges *)

Lemma vector_from_range_in {A : Type} (conv : A → cdouble) (buf : list A)
    (first last : Z) :
  0 ≤ first → first ≤ last → last ≤ Z.of_nat (length buf) →
  vector_from_range conv buf first last =
  Ok (conv <$> take (Z.to_nat (last - first)) (drop (Z.to_nat first) buf)).
Proof.
  intros H0 H1 H2. unfold vector_from_range.
  rewrite (proj2 (Z.leb_le _ _) H0), (proj2 (Z.leb_le _ _) H1),
    (proj2 (Z.leb_le _ _) H2). reflexivity.
Qed.

Lemma vector_from_range_out {A : Type} (conv : A → cdouble) (buf : list A)
    (first last : Z) :
  first < 0 ∨ last < first ∨ Z.of_nat (length buf) < last →
  vector_from_range conv buf first last = Fail out_of_bounds.
Proof.
  intros H. unfold vector_from_range.
  destruct (0 <=? first) eqn:E0; [|reflexivity].
  destruct (first <=? last) eqn:E1; [|reflexivity].
  destruct (last <=? Z.of_nat (length buf)) eqn:E2; [|reflexivity].
  apply Z.leb_le in E0, E1, E2. lia.
Qed.

Lemma vector_from_range_whole {A : Type} (conv : A → cdouble) (buf : list A) :
  vector_from_range conv buf 0 (0 + Z.of_nat (length buf)) = Ok (conv <$> buf).
Proof.
  rewrite vector_from_range_in by lia.
  replace (Z.to_nat (0 + Z.of_nat (length buf) - 0)) with (length buf) by lia.
  change (Z.to_nat 0) with 0%nat. rewrite drop_0, firstn_all. reflexivity.
Qed.

(** *** The two loops of restoreSOLUTION *)

Ltac in_mandatory := unfold mandatory_keys; repeat constructor.

Lemma list_first_split {A : Type} (P : A → bool) (l : list A) :
  (∃ x, x ∈ l ∧ P x = true) →
  ∃ pre x post, l = pre ++ x :: post ∧ Forall (λ y, P y = false) pre ∧ P x = true.
Proof.
  induction l as [|a l IH]; intros (x & Hin & HP).
  - inversion Hin.
  - destruct (P a) eqn:Ha.
    + exists [], a, l. auto.
    + destruct IH as (pre & y & post & -> & Hpre & Hy).
      * exists x. split; [|exact HP].
        apply elem_of_cons in Hin as [->|Hin]; [congruence | exact Hin].
      * exists (a :: pre), y, post. auto.
Qed.

Lemma check_present_all (file : ecl_file_type) (keys : list string) :
  Forall (λ key, ecl_file_has_kw file key = true) keys →
  check_present file keys = Ok tt.
Proof.
  induction 1 as [|key keys Hkey _ IH]; simpl; [reflexivity|].
  rewrite Hkey. exact IH.
Qed.

Lemma check_present_first_absent (file : ecl_file_type)
    (pre : list string) (key : string) (post : list string) :
  Forall (λ k, ecl_file_has_kw file k = true) pre →
  ecl_file_has_kw file key = false →
  check_present file (pre ++ key :: post) = throw (missing_keyword_message key).
Proof.
  intros Hpre Hkey. induction Hpre as [|k pre Hk _ IH]; simpl.
  - rewrite Hkey. reflexivity.
  - rewrite Hk. exact IH.
Qed.

Lemma new_keyword_floats (file : ecl_file_type) (nm : string) (xs : list cfloat) :
  record_floats file nm = Ok xs →
  ∃ k, new_keyword file nm =
       Ok {| keyword_kw := k; keyword_size := Z.of_nat (length xs);
             keyword_data := xs; keyword_name := nm |}.
Proof.
  unfold record_floats, new_keyword. intros (k & Hk & Hxs)%bind_Ok.
  exists k. rewrite Hk; simpl. rewrite Hxs; simpl.
  rewrite (float_ptr_size _ _ Hxs). reflexivity.
Qed.

Lemma new_keyword_inv (file : ecl_file_type) (nm : string) (kw : keyword) :
  new_keyword file nm = Ok kw →
  record_floats file nm = Ok (keyword_data kw) ∧
  keyword_size kw = Z.of_nat (length (keyword_data kw)) ∧
  keyword_name kw = nm.
Proof.
  unfold record_floats, new_keyword.
  intros (k & Hk & (xs & Hxs & [= <-])%bind_Ok)%bind_Ok; simpl.
  rewrite Hk; simpl. auto using float_ptr_size.
Qed.

Lemma keyword_values_whole (k : ecl_kw) (xs : list cfloat) (nm : string) :
  keyword_values float_to_double
    {| keyword_kw := k; keyword_size := Z.of_nat (length xs);
       keyword_data := xs; keyword_name := nm |}
  = Ok (float_to_double <$> xs).
Proof. apply vector_from_range_whole. Qed.

(** *** The optional keywords *)

Lemma restore_optional_absent (file : ecl_file_type) (name : string)
    (k : data.Solution.key) (sol : Solution) :
  ecl_file_has_kw file name = false →
  restore_optional float_to_double file name k sol = Ok sol.
Proof. unfold restore_optional. intros ->. reflexivity. Qed.

Lemma restore_optional_present (file : ecl_file_type) (name : string)
    (k : data.Solution.key) (sol : Solution) (xs : list cfloat) :
  record_floats file name = Ok xs →
  restore_optional float_to_double file name k sol
  = Ok (<[k := float_to_double <$> xs]> sol).
Proof.
  intros Hxs. unfold restore_optional.
  rewrite (record_floats_has_kw _ _ _ Hxs).
  destruct (new_keyword_floats _ _ _ Hxs) as (kw & ->); simpl.
  rewrite keyword_values_whole. reflexivity.
Qed.

Lemma restore_optional_inv (file : ecl_file_type) (name : string)
    (k : data.Solution.key) (sol sol' : Solution) :
  restore_optional float_to_double file name k sol = Ok sol' →
  (ecl_file_has_kw file name = false ∧ sol' = sol) ∨
  (ecl_file_has_kw file name = true ∧
   ∃ xs, record_floats file name = Ok xs ∧
         sol' = <[k := float_to_double <$> xs]> sol).
Proof.
  intros H. destruct (ecl_file_has_kw file name) eqn:Hhas.
  - right. split; [reflexivity|].
    assert (∃ xs, record_floats file name = Ok xs) as [xs Hxs].
    { unfold restore_optional in H. rewrite Hhas in H.
      apply bind_Ok in H as (kw & Hkw & _).
      eexists. apply (new_keyword_inv _ _ _ Hkw). }
    exists xs. split; [exact Hxs|].
    rewrite (restore_optional_present _ _ _ _ _ Hxs) in H. congruence.
  - left. rewrite restore_optional_absent in H by exact Hhas.
    split; congruence.
Qed.

(** *** restoreSOLUTION, case by case *)

(** The two in-place transformations act on the PRESSURE and TEMP entries
    only. *)
Lemma normalised_mandatory (tbl : conv_table) (ps ts ss gs : list cfloat) :
  alter (fmap (λ x, to_si tbl conversions.temperature x)) data.Solution.TEMP
    (alter (fmap (λ x, to_si tbl conversions.pressure x)) data.Solution.PRESSURE
       (<[data.Solution.SGAS := float_to_double <$> gs]>
       (<[data.Solution.SWAT := float_to_double <$> ss]>
       (<[data.Solution.TEMP := float_to_double <$> ts]>
       (<[data.Solution.PRESSURE := float_to_double <$> ps]>
          (∅ : Solution))))))
  = mandatory_solution float_to_double to_si tbl ps ts ss gs.
Proof.
  unfold mandatory_solution.
  change (λ x, to_si tbl conversions.temperature (float_to_double x))
    with ((λ x, to_si tbl conversions.temperature x) ∘ float_to_double).
  change (λ x, to_si tbl conversions.pressure (float_to_double x))
    with ((λ x, to_si tbl conversions.pressure x) ∘ float_to_double).
  rewrite !list_fmap_compose.
  apply map_eq. intros k.
  destruct k; reflexivity.
Qed.

Lemma mandatory_present (file : ecl_file_type) (ps ts ss gs : list cfloat) :
  record_floats file "PRESSURE" = Ok ps →
  record_floats file "TEMP" = Ok ts →
  record_floats file "SWAT" = Ok ss →
  record_floats file "SGAS" = Ok gs →
  Forall (λ key, ecl_file_has_kw file key = true) mandatory_keys.
Proof.
  intros Hp Ht Hs Hg. unfold mandatory_keys.
  repeat constructor; eapply record_floats_has_kw; eassumption.
Qed.

(** With the four mandatory records in the store at single precision, the
    call is decided by their sizes, tested in order, and then by the
    optional keywords. *)
Lemma restoreSOLUTION_present (file : ecl_file_type) (numcells : Z)
    (tbl : conv_table) (ps ts ss gs : list cfloat) :
  record_floats file "PRESSURE" = Ok ps →
  record_floats file "TEMP" = Ok ts →
  record_floats file "SWAT" = Ok ss →
  record_floats file "SGAS" = Ok gs →
  restoreSOLUTION float_to_double to_si file numcells tbl =
    if negb (Z.of_nat (length ps) =? numcells)
    then throw (mismatch_message "PRESSURE")
    else if negb (Z.of_nat (length ts) =? numcells)
    then throw (mismatch_message "TEMP")
    else if negb (Z.of_nat (length ss) =? numcells)
    then throw (mismatch_message "SWAT")
    else if negb (Z.of_nat (length gs) =? numcells)
    then throw (mismatch_message "SGAS")
    else
      restore_optional float_to_double file "RS" data.Solution.RS
        (mandatory_solution float_to_double to_si tbl ps ts ss gs)
      ≫= restore_optional float_to_double file "RV" data.Solution.RV.
Proof.
  intros Hp Ht Hs Hg. unfold restoreSOLUTION.
  rewrite (check_present_all _ _ (mandatory_present _ _ _ _ _ Hp Ht Hs Hg)).
  destruct (new_keyword_floats _ _ _ Hp) as (kp & ->).
  destruct (new_keyword_floats _ _ _ Ht) as (kt & ->).
  destruct (new_keyword_floats _ _ _ Hs) as (ks & ->).
  destruct (new_keyword_floats _ _ _ Hg) as (kg & ->).
  cbn [mbind result_bind check_sizes keyword_size keyword_name].
  destruct (negb (Z.of_nat (length ps) =? numcells)); [reflexivity|].
  destruct (negb (Z.of_nat (length ts) =? numcells)); [reflexivity|].
  destruct (negb (Z.of_nat (length ss) =? numcells)); [reflexivity|].
  destruct (negb (Z.of_nat (length gs) =? numcells)); [reflexivity|].
  rewrite !keyword_values_whole.
  cbn [mbind result_bind].
  rewrite normalised_mandatory.
  destruct (restore_optional _ _ _ _ _) as [s1|f]; simpl; [|reflexivity].
  apply bind_ret.
Qed.

Lemma restoreSOLUTION_Ok_records (file : ecl_file_type) (numcells : Z)
    (tbl : conv_table) (sol : Solution) :
  restoreSOLUTION float_to_double to_si file numcells tbl = Ok sol →
  ∃ ps ts ss gs,
    record_floats file "PRESSURE" = Ok ps ∧
    record_floats file "TEMP" = Ok ts ∧
    record_floats file "SWAT" = Ok ss ∧
    record_floats file "SGAS" = Ok gs.
Proof.
  unfold restoreSOLUTION.
  intros (_ & _ & (kp & Hp & (kt & Ht & (ks & Hs & (kg & Hg & _)
    %bind_Ok)%bind_Ok)%bind_Ok)%bind_Ok)%bind_Ok.
  exists (keyword_data kp), (keyword_data kt), (keyword_data ks), (keyword_data kg).
  repeat split; eapply new_keyword_inv; eassumption.
Qed.

(** A successful call, taken apart: the four mandatory records, their
    common size, and the two optional steps. *)
Lemma restoreSOLUTION_Ok_inv (file : ecl_file_type) (numcells : Z)
    (tbl : conv_table) (sol : Solution) :
  restoreSOLUTION float_to_double to_si file numcells tbl = Ok sol →
  ∃ ps ts ss gs s1,
    record_floats file "PRESSURE" = Ok ps ∧
    record_floats file "TEMP" = Ok ts ∧
    record_floats file "SWAT" = Ok ss ∧
    record_floats file "SGAS" = Ok gs ∧
    Z.of_nat (length ps) = numcells ∧
    Z.of_nat (length ts) = numcells ∧
    Z.of_nat (length ss) = numcells ∧
    Z.of_nat (length gs) = numcells ∧
    restore_optional float_to_double file "RS" data.Solution.RS
      (mandatory_solution float_to_double to_si tbl ps ts ss gs) = Ok s1 ∧
    restore_optional float_to_double file "RV" data.Solution.RV s1 = Ok sol.
Proof.
  intros H.
  destruct (restoreSOLUTION_Ok_records _ _ _ _ H) as (ps & ts & ss & gs & Hp & Ht & Hs & Hg).
  rewrite (restoreSOLUTION_present _ _ _ _ _ _ _ Hp Ht Hs Hg) in H.
  destruct (Z.eqb_spec (Z.of_nat (length ps)) numcells) as [Ep|]; [|discriminate].
  destruct (Z.eqb_spec (Z.of_nat (length ts)) numcells) as [Et|]; [|discriminate].
  destruct (Z.eqb_spec (Z.of_nat (length ss)) numcells) as [Es|]; [|discriminate].
  destruct (Z.eqb_spec (Z.of_nat (length gs)) numcells) as [Eg|]; [|discriminate].
  simpl in H. apply bind_Ok in H as (s1 & H1 & H2).
  exists ps, ts, ss, gs, s1. auto 10.
Qed.

(** The mandatory entries survive the optional steps. *)
Lemma restore_optional_lookup_ne (file : ecl_file_type) (name : string)
    (k k' : data.Solution.key) (sol sol' : Solution) :
  k ≠ k' →
  restore_optional float_to_double file name k sol = Ok sol' →
  sol' !! k' = sol !! k'.
Proof.
  intros Hne [[_ ->]|[_ (xs & _ & ->)]]%restore_optional_inv; [reflexivity|].
  apply lookup_insert_ne, Hne.
Qed.

Lemma mandatory_solution_lookup (tbl : conv_table) (ps ts ss gs : list cfloat) :
  let sol := mandatory_solution float_to_double to_si tbl ps ts ss gs in
  sol !! data.Solution.PRESSURE
    = Some ((λ x, to_si tbl conversions.pressure (float_to_double x)) <$> ps) ∧
  sol !! data.Solution.TEMP
    = Some ((λ x, to_si tbl conversions.temperature (float_to_double x)) <$> ts) ∧
  sol !! data.Solution.SWAT = Some (float_to_double <$> ss) ∧
  sol !! data.Solution.SGAS = Some (float_to_double <$> gs) ∧
  sol !! data.Solution.RS = None ∧
  sol !! data.Solution.RV = None.
Proof. repeat split; reflexivity. Qed.

(** What a successful call leaves under the four mandatory keys. *)
Lemma restoreSOLUTION_Ok_mandatory (file : ecl_file_type) (numcells : Z)
    (tbl : conv_table) (sol : Solution) :
  restoreSOLUTION float_to_double to_si file numcells tbl = Ok sol →
  ∃ ps ts ss gs,
    (record_floats file "PRESSURE" = Ok ps ∧
     record_floats file "TEMP" = Ok ts ∧
     record_floats file "SWAT" = Ok ss ∧
     record_floats file "SGAS" = Ok gs) ∧
    (Z.of_nat (length ps) = numcells ∧
     Z.of_nat (length ts) = numcells ∧
     Z.of_nat (length ss) = numcells ∧
     Z.of_nat (length gs) = numcells) ∧
    sol !! data.Solution.PRESSURE
      = Some ((λ x, to_si tbl conversions.pressure (float_to_double x)) <$> ps) ∧
    sol !! data.Solution.TEMP
      = Some ((λ x, to_si tbl conversions.temperature (float_to_double x)) <$> ts) ∧
    sol !! data.Solution.SWAT = Some (float_to_double <$> ss) ∧
    sol !! data.Solution.SGAS = Some (float_to_double <$> gs).
Proof.
  intros (ps & ts & ss & gs & s1 & Hp & Ht & Hs & Hg & Lp & Lt & Ls & Lg
          & H1 & H2)%restoreSOLUTION_Ok_inv.
  exists ps, ts, ss, gs.
  destruct (mandatory_solution_lookup tbl ps ts ss gs) as (Mp & Mt & Ms & Mg & _).
  split; [auto|]. split; [auto|].
  repeat split.
  all: match goal with
       | |- _ !! ?k = _ =>
           rewrite (restore_optional_lookup_ne _ _ data.Solution.RV k _ _
                      ltac:(discriminate) H2);
           rewrite (restore_optional_lookup_ne _ _ data.Solution.RS k _ _
                      ltac:(discriminate) H1)
       end.
  all: assumption.
Qed.

(** *** Cell fields *)

(** C3: after a successful cell-field extraction the PRESSURE sequence is
    [to_si] at dimension pressure applied to each raw value of the
    PRESSURE record, the TEMP sequence is [to_si] at dimension
    temperature applied to each raw value of the TEMP record, and the
    SWAT and SGAS sequences are the raw values of their records with no
    conversion applied (each raw single-precision value is widened to
    double precision on the way, as for every field). *)
Theorem restoreSOLUTION_unit_conversion (file : ecl_file_type) (numcells : Z)
    (tbl : conv_table) (sol : Solution) :
  restoreSOLUTION float_to_double to_si file numcells tbl = Ok sol →
  ∃ pres temp swat sgas,
    record_floats file "PRESSURE" = Ok pres ∧
    record_floats file "TEMP" = Ok temp ∧
    record_floats file "SWAT" = Ok swat ∧
    record_floats file "SGAS" = Ok sgas ∧
    sol !! data.Solution.PRESSURE
      = Some ((λ x, to_si tbl conversions.pressure (float_to_double x)) <$> pres) ∧
    sol !! data.Solution.TEMP
      = Some ((λ x, to_si tbl conversions.temperature (float_to_double x)) <$> temp) ∧
    sol !! data.Solution.SWAT = Some (float_to_double <$> swat) ∧
    sol !! data.Solution.SGAS = Some (float_to_double <$> sgas).
Proof.
  intros (ps & ts & ss & gs & (Hp & Ht & Hs & Hg) & _ & Mp & Mt & Ms & Mg)
    %restoreSOLUTION_Ok_mandatory.
  exists ps, ts, ss, gs. auto 10.
Qed.

(** C4: a successful cell-field extraction returns a Solution that holds
    the four mandatory fields PRESSURE, TEMP (temperature), SWAT (water
    saturation) and SGAS (gas saturation), each with exactly [numcells]
    values.  This holds for every cell count, so for every positive one. *)
Theorem restoreSOLUTION_mandatory_lengths (file : ecl_file_type) (numcells : Z)
    (tbl : conv_table) (sol : Solution) :
  restoreSOLUTION float_to_double to_si file numcells tbl = Ok sol →
  ∀ k, k ∈ [data.Solution.PRESSURE; data.Solution.TEMP;
            data.Solution.SWAT; data.Solution.SGAS] →
       ∃ v, sol !! k = Some v ∧ Z.of_nat (length v) = numcells.
Proof.
  intros (ps & ts & ss & gs & _ & (Lp & Lt & Ls & Lg) & Mp & Mt & Ms & Mg)
    %restoreSOLUTION_Ok_mandatory k Hk.
  repeat (apply elem_of_cons in Hk as [->|Hk]);
    [ | | | | inversion Hk ];
    eexists; (split; [eassumption|]); rewrite length_fmap; assumption.
Qed.

(** C5: when one of the four mandatory records PRESSURE, TEMP, SWAT, SGAS
    is not in the store, cell-field extraction fails with the
    missing-keyword error whose message names an absent record (the first
    one in the order of the test); no Solution is returned and no value is
    substituted. *)
Theorem restoreSOLUTION_missing_keyword (file : ecl_file_type) (numcells : Z)
    (tbl : conv_table) :
  (∃ key, key ∈ mandatory_keys ∧ ecl_file_has_kw file key = false) →
  ∃ pre key post,
    mandatory_keys = pre ++ key :: post ∧
    Forall (λ k, ecl_file_has_kw file k = true) pre ∧
    ecl_file_has_kw file key = false ∧
    restoreSOLUTION float_to_double to_si file numcells tbl
      = Fail (runtime_error (missing_keyword_message key)).
Proof.
  intros (k & Hin & Hk).
  destruct (list_first_split (λ key, negb (ecl_file_has_kw file key)) mandatory_keys)
    as (pre & key & post & Hsplit & Hpre & Hkey).
  { exists k. rewrite Hk. auto. }
  apply negb_true_iff in Hkey.
  assert (Forall (λ k, ecl_file_has_kw file k = true) pre) as Hpre'.
  { eapply Forall_impl; [exact Hpre|]. intros ? ?%negb_false_iff. assumption. }
  exists pre, key, post. repeat split; try assumption.
  unfold restoreSOLUTION. rewrite Hsplit.
  rewrite (check_present_first_absent _ _ _ _ Hpre' Hkey). reflexivity.
Qed.

(** C6 (amended): when the four mandatory records are all in the store as
    single-precision records and one of them has an element count other
    than [numcells], cell-field extraction fails with the size-mismatch
    error whose message names the first such record in the order
    PRESSURE, TEMP, SWAT, SGAS.  The error is that message alone: neither
    the expected nor the actual element count is part of it. *)
Theorem restoreSOLUTION_size_mismatch (file : ecl_file_type) (numcells : Z)
    (tbl : conv_table) :
  (∀ name, name ∈ mandatory_keys → ∃ xs, record_floats file name = Ok xs) →
  (∃ name xs, name ∈ mandatory_keys ∧ record_floats file name = Ok xs ∧
              Z.of_nat (length xs) ≠ numcells) →
  ∃ pre name post xs,
    mandatory_keys = pre ++ name :: post ∧
    Forall (λ n, ∃ ys, record_floats file n = Ok ys ∧
                       Z.of_nat (length ys) = numcells) pre ∧
    record_floats file name = Ok xs ∧
    Z.of_nat (length xs) ≠ numcells ∧
    restoreSOLUTION float_to_double to_si file numcells tbl
      = Fail (runtime_error (mismatch_message name)).
Proof.
  intros Hall (bad & xs & Hbad & Hxs & Hne).
  destruct (Hall "PRESSURE") as [ps Hp]; [in_mandatory|].
  destruct (Hall "TEMP") as [ts Ht]; [in_mandatory|].
  destruct (Hall "SWAT") as [ss Hs]; [in_mandatory|].
  destruct (Hall "SGAS") as [gs Hg]; [in_mandatory|].
  rewrite (restoreSOLUTION_present _ numcells tbl _ _ _ _ Hp Ht Hs Hg).
  destruct (Z.eqb_spec (Z.of_nat (length ps)) numcells) as [Ep|Np]; simpl.
  2: { exists [], "PRESSURE", ["TEMP"; "SWAT"; "SGAS"], ps. auto. }
  destruct (Z.eqb_spec (Z.of_nat (length ts)) numcells) as [Et|Nt]; simpl.
  2: { exists ["PRESSURE"], "TEMP", ["SWAT"; "SGAS"], ts.
       repeat split; eauto 10. }
  destruct (Z.eqb_spec (Z.of_nat (length ss)) numcells) as [Es|Ns]; simpl.
  2: { exists ["PRESSURE"; "TEMP"], "SWAT", ["SGAS"], ss.
       repeat split; eauto 10. }
  destruct (Z.eqb_spec (Z.of_nat (length gs)) numcells) as [Eg|Ng]; simpl.
  2: { exists ["PRESSURE"; "TEMP"; "SWAT"], "SGAS", [], gs.
       repeat split; eauto 10. }
  exfalso. unfold mandatory_keys in Hbad.
  repeat (apply elem_of_cons in Hbad as [->|Hbad]);
    [ | | | | inversion Hbad ]; congruence.
Qed.

(** *** Optional fields *)

Lemma named_kws_snoc_ne (file : ecl_file_type) (r : ecl_kw) (name : string) :
  ecl_kw_get_header r ≠ name →
  named_kws (file ++ [r]) name = named_kws file name.
Proof.
  intros Hne. unfold named_kws. rewrite filter_app, filter_cons_False by exact Hne.
  rewrite filter_nil. apply app_nil_r.
Qed.

Lemma named_kws_snoc_fresh (file : ecl_file_type) (r : ecl_kw) :
  ecl_file_has_kw file (ecl_kw_get_header r) = false →
  named_kws (file ++ [r]) (ecl_kw_get_header r) = [r].
Proof.
  unfold ecl_file_has_kw, named_kws. intros H.
  rewrite filter_app, filter_cons_True by reflexivity. rewrite filter_nil.
  destruct (filter _ file); [reflexivity | discriminate].
Qed.

Lemma record_floats_snoc_ne (file : ecl_file_type) (r : ecl_kw) (name : string) :
  ecl_kw_get_header r ≠ name →
  record_floats (file ++ [r]) name = record_floats file name.
Proof.
  intros Hne. unfold record_floats, ecl_file_iget_named_kw.
  rewrite named_kws_snoc_ne by exact Hne. reflexivity.
Qed.

Lemma record_floats_snoc_fresh (file : ecl_file_type) (name : string)
    (xs : list cfloat) :
  ecl_file_has_kw file name = false →
  record_floats
    (file ++ [{| ecl_kw_get_header := name; ecl_kw_get_data := ECL_FLOAT xs |}])
    name = Ok xs.
Proof.
  intros Hfresh. unfold record_floats, ecl_file_iget_named_kw.
  pose proof (named_kws_snoc_fresh file
                {| ecl_kw_get_header := name; ecl_kw_get_data := ECL_FLOAT xs |}
                Hfresh) as E.
  simpl in E. rewrite E. reflexivity.
Qed.

Lemma restore_optional_snoc_ne (file : ecl_file_type) (r : ecl_kw) (name : string)
    (k : data.Solution.key) (sol : Solution) :
  ecl_kw_get_header r ≠ name →
  restore_optional float_to_double (file ++ [r]) name k sol
  = restore_optional float_to_double file name k sol.
Proof.
  intros Hne.
  unfold restore_optional, new_keyword, ecl_file_has_kw, ecl_file_iget_named_kw.
  rewrite named_kws_snoc_ne by exact Hne. reflexivity.
Qed.

(** One more record at the end of an accepted store, under an optional
    name the store does not use: the store is accepted again, with the
    raw values of the new record under the optional key. *)
Lemma restoreSOLUTION_snoc_optional (file : ecl_file_type) (numcells : Z)
    (tbl : conv_table) (sol : Solution)
    (name other : string) (k k' : data.Solution.key) (xs : list cfloat) :
  (name = "RS" ∧ k = data.Solution.RS ∧ other = "RV" ∧ k' = data.Solution.RV) ∨
  (name = "RV" ∧ k = data.Solution.RV ∧ other = "RS" ∧ k' = data.Solution.RS) →
  restoreSOLUTION float_to_double to_si file numcells tbl = Ok sol →
  ecl_file_has_kw file name = false →
  restoreSOLUTION float_to_double to_si
    (file ++ [{| ecl_kw_get_header := name; ecl_kw_get_data := ECL_FLOAT xs |}])
    numcells tbl
  = Ok (<[k := float_to_double <$> xs]> sol).
Proof.
  intros Hwhich (ps & ts & ss & gs & s1 & Hp & Ht & Hs & Hg & Lp & Lt & Ls & Lg
                 & H1 & H2)%restoreSOLUTION_Ok_inv Hfresh.
  set (r := {| ecl_kw_get_header := name; ecl_kw_get_data := ECL_FLOAT xs |}).
  assert (∀ n, n ∈ mandatory_keys → ecl_kw_get_header r ≠ n) as Hman.
  { intros n Hn <-. simpl in Hn. unfold mandatory_keys in Hn.
    destruct Hwhich as [(-> & _)|(-> & _)];
      repeat (apply elem_of_cons in Hn as [[=]|Hn]); inversion Hn. }
  rewrite (restoreSOLUTION_present (file ++ [r]) numcells tbl ps ts ss gs).
  2-5: rewrite record_floats_snoc_ne;
       [assumption | apply Hman; in_mandatory].
  rewrite Lp, Lt, Ls, Lg, Z.eqb_refl. simpl.
  pose proof (record_floats_snoc_fresh file name xs Hfresh) as Hnew. fold r in Hnew.
  destruct Hwhich as [(-> & -> & -> & ->)|(-> & -> & -> & ->)].
  - rewrite (restore_optional_present _ _ _ _ _ Hnew).
    rewrite (restore_optional_absent _ _ _ _ Hfresh) in H1.
    injection H1 as <-. simpl.
    rewrite restore_optional_snoc_ne by discriminate.
    apply restore_optional_inv in H2 as [[Hno ->]|[_ (ys & Hys & ->)]].
    + rewrite restore_optional_absent by exact Hno. reflexivity.
    + rewrite (restore_optional_present _ _ _ _ _ Hys).
      rewrite insert_insert_ne by discriminate. reflexivity.
  - rewrite restore_optional_snoc_ne by discriminate.
    rewrite H1. simpl.
    rewrite (restore_optional_absent _ _ _ _ Hfresh) in H2.
    injection H2 as <-.
    apply (restore_optional_present _ _ _ _ _ Hnew).
Qed.

(** The optional entries of a Solution, read back from the store. *)
Lemma restoreSOLUTION_Ok_optional (file : ecl_file_type) (numcells : Z)
    (tbl : conv_table) (sol : Solution) :
  restoreSOLUTION float_to_double to_si file numcells tbl = Ok sol →
  ((ecl_file_has_kw file "RS" = false ∧ sol !! data.Solution.RS = None) ∨
   (ecl_file_has_kw file "RS" = true ∧
    ∃ xs, record_floats file "RS" = Ok xs ∧
          sol !! data.Solution.RS = Some (float_to_double <$> xs))) ∧
  ((ecl_file_has_kw file "RV" = false ∧ sol !! data.Solution.RV = None) ∨
   (ecl_file_has_kw file "RV" = true ∧
    ∃ xs, record_floats file "RV" = Ok xs ∧
          sol !! data.Solution.RV = Some (float_to_double <$> xs))).
Proof.
  intros (ps & ts & ss & gs & s1 & _ & _ & _ & _ & _ & _ & _ & _ & H1 & H2)
    %restoreSOLUTION_Ok_inv.
  destruct (mandatory_solution_lookup tbl ps ts ss gs) as (_ & _ & _ & _ & Mrs & Mrv).
  assert (sol !! data.Solution.RS = s1 !! data.Solution.RS) as Ers
    by (exact (restore_optional_lookup_ne _ _ data.Solution.RV data.Solution.RS
                 _ _ ltac:(discriminate) H2)).
  assert (s1 !! data.Solution.RV = None) as Erv
    by (rewrite (restore_optional_lookup_ne _ _ data.Solution.RS data.Solution.RV
                   _ _ ltac:(discriminate) H1); exact Mrv).
  split.
  - rewrite Ers.
    apply restore_optional_inv in H1 as [[Hrs ->]|[Hrs (xs & Hxs & ->)]].
    + left. auto.
    + right. split; [exact Hrs|]. exists xs. split; [exact Hxs|].
      apply lookup_insert_eq.
  - apply restore_optional_inv in H2 as [[Hrv ->]|[Hrv (ys & Hys & ->)]].
    + left. auto.
    + right. split; [exact Hrv|]. exists ys. split; [exact Hys|].
      apply lookup_insert_eq.
Qed.

(** C7: after a successful extraction the Solution has an RS (dissolved
    gas ratio) entry exactly when the store has an RS record, and an RV
    (vaporized oil ratio) entry exactly when it has an RV record; an entry
    that is there holds the raw values of its record, unconverted.  No
    size is tested: adding an RS or RV record of any length to a store
    that is accepted gives a store that is accepted, with those values
    under the key. *)
Theorem restoreSOLUTION_optional_fields (file : ecl_file_type) (numcells : Z)
    (tbl : conv_table) (sol : Solution) :
  restoreSOLUTION float_to_double to_si file numcells tbl = Ok sol →
  (is_Some (sol !! data.Solution.RS) ↔ ecl_file_has_kw file "RS" = true) ∧
  (is_Some (sol !! data.Solution.RV) ↔ ecl_file_has_kw file "RV" = true) ∧
  (ecl_file_has_kw file "RS" = true →
   ∃ xs, record_floats file "RS" = Ok xs ∧
         sol !! data.Solution.RS = Some (float_to_double <$> xs)) ∧
  (ecl_file_has_kw file "RV" = true →
   ∃ xs, record_floats file "RV" = Ok xs ∧
         sol !! data.Solution.RV = Some (float_to_double <$> xs)) ∧
  (∀ xs, ecl_file_has_kw file "RS" = false →
     restoreSOLUTION float_to_double to_si
       (file ++ [{| ecl_kw_get_header := "RS"; ecl_kw_get_data := ECL_FLOAT xs |}])
       numcells tbl
     = Ok (<[data.Solution.RS := float_to_double <$> xs]> sol)) ∧
  (∀ xs, ecl_file_has_kw file "RV" = false →
     restoreSOLUTION float_to_double to_si
       (file ++ [{| ecl_kw_get_header := "RV"; ecl_kw_get_data := ECL_FLOAT xs |}])
       numcells tbl
     = Ok (<[data.Solution.RV := float_to_double <$> xs]> sol)).
Proof.
  intros H.
  assert (∀ xs, ecl_file_has_kw file "RS" = false → _) as HaddRS
    by (intros xs; exact (restoreSOLUTION_snoc_optional file numcells tbl sol
          "RS" "RV" data.Solution.RS data.Solution.RV xs
          (or_introl (conj eq_refl (conj eq_refl (conj eq_refl eq_refl)))) H)).
  assert (∀ xs, ecl_file_has_kw file "RV" = false → _) as HaddRV
    by (intros xs; exact (restoreSOLUTION_snoc_optional file numcells tbl sol
          "RV" "RS" data.Solution.RV data.Solution.RS xs
          (or_intror (conj eq_refl (conj eq_refl (conj eq_refl eq_refl)))) H)).
  destruct (restoreSOLUTION_Ok_optional _ _ _ _ H) as (Hrs & Hrv).
  repeat split; try assumption.
  - destruct Hrs as [[_ ->]|[E _]]; [intros [? [=]] | intros; exact E].
  - destruct Hrs as [[E ->]|[_ (xs & _ & ->)]]; [rewrite E; discriminate | eauto].
  - destruct Hrv as [[_ ->]|[E _]]; [intros [? [=]] | intros; exact E].
  - destruct Hrv as [[E ->]|[_ (xs & _ & ->)]]; [rewrite E; discriminate | eauto].
  - intros E. destruct Hrs as [[E' _]|[_ Hxs]]; [congruence | exact Hxs].
  - intros E. destruct Hrv as [[E' _]|[_ Hxs]]; [congruence | exact Hxs].
Qed.

(** *** Well fields *)

Lemma record_doubles_inv (file : ecl_file_type) (name : string) (xs : list cdouble) :
  record_doubles file name = Ok xs →
  ∃ k, ecl_file_iget_named_kw file name 0 = Ok k ∧
       ecl_kw_get_double_ptr k = Ok xs ∧
       ecl_kw_get_size k = Z.of_nat (length xs).
Proof.
  unfold record_doubles. intros (k & Hk & Hxs)%bind_Ok.
  exists k. auto using double_ptr_size.
Qed.

(** Five consecutive windows and what is left behind them. *)
Lemma split_windows {A : Type} (xs : list A) (a b c d e : nat) :
  xs = take a xs ++ take b (drop a xs) ++ take c (drop (a + b) xs)
       ++ take d (drop (a + b + c) xs) ++ take e (drop (a + b + c + d) xs)
       ++ drop (a + b + c + d + e) xs.
Proof.
  rewrite <- !drop_drop. rewrite !take_drop. reflexivity.
Qed.

(** C2: for well count [W ≥ 0], phase count [P ≥ 0] and a well-state
    record of [N ≥ 2*W + W*P] values, well-field extraction succeeds and
    cuts the record, front to back, into bottom-hole pressure ([W]
    values), temperature ([W] values), surface rate ([W*P] values),
    perforation pressure and perforation rate ([R/2] values each, with
    [R = N - 2*W - W*P] and integer division); the [R mod 2] values left
    over, one when [R] is odd and none otherwise, are in no field. *)
Theorem restoreOPM_XWEL_slices (file : ecl_file_type) (W P : Z)
    (xs : list cdouble) :
  record_doubles file "OPM_XWEL" = Ok xs →
  0 ≤ W → 0 ≤ P →
  2 * W + W * P ≤ Z.of_nat (length xs) →
  let R := Z.of_nat (length xs) - 2 * W - W * P in
  ∃ wells rest,
    restoreOPM_XWEL file W P = Ok wells ∧
    xs = data.bhp wells ++ data.temperature wells ++ data.well_rate wells
         ++ data.perf_pressure wells ++ data.perf_rate wells ++ rest ∧
    Z.of_nat (length (data.bhp wells)) = W ∧
    Z.of_nat (length (data.temperature wells)) = W ∧
    Z.of_nat (length (data.well_rate wells)) = W * P ∧
    Z.of_nat (length (data.perf_pressure wells)) = R / 2 ∧
    Z.of_nat (length (data.perf_rate wells)) = R / 2 ∧
    Z.of_nat (length rest) = R mod 2.
Proof.
  intros (k & Hk & Hxs & Hsize)%record_doubles_inv HW HP HN R.
  assert (0 ≤ W * P) as HWP by (apply Z.mul_nonneg_nonneg; assumption).
  assert (0 ≤ R) as HR by (unfold R; lia).
  assert (R ÷ 2 = R / 2) as Hquot by (apply Z.quot_div_nonneg; lia).
  pose proof (Z.div_mod R 2 ltac:(lia)) as Hdm.
  pose proof (Z.mod_pos_bound R 2 ltac:(lia)) as Hmod.
  set (w := Z.to_nat W). set (wp := Z.to_nat (W * P)). set (h := Z.to_nat (R / 2)).
  exists {| data.bhp := take w xs;
            data.perf_pressure := take h (drop (w + w + wp) xs);
            data.perf_rate := take h (drop (w + w + wp + h) xs);
            data.temperature := take w (drop w xs);
            data.well_rate := take wp (drop (w + w) xs) |},
         (drop (w + w + wp + h + h) xs).
  cbn [data.bhp data.perf_pressure data.perf_rate data.temperature data.well_rate].
  split.
  { unfold restoreOPM_XWEL. rewrite Hk; simpl. rewrite Hxs; simpl.
    rewrite Hsize, !Z.add_0_l.
    replace (Z.of_nat (length xs) - (W + W + W * P)) with R by (unfold R; lia).
    rewrite Hquot.
    rewrite !vector_from_range_in by lia. simpl.
    rewrite !list_fmap_id.
    repeat f_equal; unfold w, wp, h; lia. }
  split; [apply split_windows|].
  assert (Z.of_nat w = W ∧ Z.of_nat wp = W * P ∧ Z.of_nat h = R / 2)
    as (Ew & Ewp & Eh) by (unfold w, wp, h; lia).
  assert (Z.of_nat (length xs) = W + W + W * P + R / 2 + R / 2 + R mod 2)
    as Elen by (unfold R in *; lia).
  clearbody w wp h R. rewrite <- Ew, <- Ewp, <- Eh in *.
  rewrite Z.mul_comm in Ewp. clear Ew Ewp Eh Hquot Hdm HR HN.
  rewrite !length_take, !length_drop. lia.
Qed.

(** A well-state record shorter than the first three windows: the call
    ends in a read outside the record, not in an exception. *)
Lemma restoreOPM_XWEL_short (file : ecl_file_type) (W P : Z) (xs : list cdouble) :
  record_doubles file "OPM_XWEL" = Ok xs →
  0 ≤ W → 0 ≤ P →
  Z.of_nat (length xs) < 2 * W + W * P →
  restoreOPM_XWEL file W P = Fail out_of_bounds.
Proof.
  intros (k & Hk & Hxs & Hsize)%record_doubles_inv HW HP HN.
  assert (0 ≤ W * P) as HWP by (apply Z.mul_nonneg_nonneg; assumption).
  unfold restoreOPM_XWEL. rewrite Hk; simpl. rewrite Hxs; simpl.
  rewrite Hsize, !Z.add_0_l.
  set (R := Z.of_nat (length xs) - (W + W + W * P)).
  assert (R < 0) as HR by (unfold R; lia).
  assert (R ÷ 2 ≤ 0) as Hq.
  { rewrite <- (Z.opp_involutive R), Z.quot_opp_l by lia.
    pose proof (Z.quot_pos (- R) 2 ltac:(lia) ltac:(lia)). lia. }
  destruct (vector_from_range id xs 0 W) as [v|f] eqn:Hbhp; simpl.
  - rewrite (vector_from_range_out id xs (W + W + W * P)
               (W + W + W * P + R ÷ 2)) by lia.
    reflexivity.
  - unfold vector_from_range in Hbhp.
    destruct (_ && _); [discriminate | congruence].
Qed.

(** C10: a store without an OPM_XWEL record.  Well-field extraction
    fetches the record without asking whether it is there, so the call
    ends inside the record library; it does not end in an exception of
    the reader, and in particular not in a missing-keyword error naming
    OPM_XWEL as for the mandatory cell records. *)
Theorem restoreOPM_XWEL_missing_record (file : ecl_file_type) (W P : Z) :
  ecl_file_has_kw file "OPM_XWEL" = false →
  restoreOPM_XWEL file W P = Fail (abort_no_such_kw "OPM_XWEL") ∧
  ∀ msg, restoreOPM_XWEL file W P ≠ Fail (runtime_error msg).
Proof.
  intros Hno%no_kw_iget.
  assert (restoreOPM_XWEL file W P = Fail (abort_no_such_kw "OPM_XWEL")) as E
    by (unfold restoreOPM_XWEL; rewrite Hno; reflexivity).
  split; [exact E|]. intros msg. rewrite E. discriminate.
Qed.

(** *** The whole read *)

(** Once the file is open and, for a unified file, the block of the
    report step is selected, the read is the two extractions in
    sequence. *)
Lemma init_from_restart_file_opened (es : EclipseState) (numcells : Z)
    (file view : ecl_file_type) :
  let step := getRestartStep (getInitConfig es) in
  let filename :=
    getRestartFileName (getIOConfig es) (getRestartRootName (getInitConfig es))
      step false in
  ecl_file_open filename = Some file →
  (if getUNIFIN (getIOConfig es)
   then ecl_file_select_rstblock_report_step file step = Some view
   else view = file) →
  init_from_restart_file' es numcells =
    (sol ← restoreSOLUTION float_to_double to_si view numcells
             (select_conv_table metric2si field2si (getType (getDeckUnitSystem es)));
     wells ← restoreOPM_XWEL view (numWells (getSchedule es) step)
               (getNumPhases (getTableManager es));
     mret (sol, wells)).
Proof.
  intros step filename Hopen Hview. unfold init_from_restart_file.
  fold step. fold filename. rewrite Hopen.
  destruct (getUNIFIN (getIOConfig es)).
  - rewrite Hview. reflexivity.
  - subst view. reflexivity.
Qed.

(** C8: with the record store open on the report step, a failure of the
    cell-field extraction is the failure of the whole read, unchanged; if
    the cell fields are extracted and the well-field extraction fails,
    its failure is the failure of the whole read, unchanged; and the read
    returns a pair only when the store was opened and both extractions
    returned, the pair being their two results. *)
Theorem init_from_restart_file_propagates (es : EclipseState) (numcells : Z) :
  let step := getRestartStep (getInitConfig es) in
  let filename :=
    getRestartFileName (getIOConfig es) (getRestartRootName (getInitConfig es))
      step false in
  let opened (file view : ecl_file_type) :=
    ecl_file_open filename = Some file ∧
    (if getUNIFIN (getIOConfig es)
     then ecl_file_select_rstblock_report_step file step = Some view
     else view = file) in
  let cells (view : ecl_file_type) :=
    restoreSOLUTION float_to_double to_si view numcells
      (select_conv_table metric2si field2si (getType (getDeckUnitSystem es))) in
  let wells (view : ecl_file_type) :=
    restoreOPM_XWEL view (numWells (getSchedule es) step)
      (getNumPhases (getTableManager es)) in
  (∀ file view f,
     opened file view → cells view = Fail f →
     init_from_restart_file' es numcells = Fail f) ∧
  (∀ file view sol f,
     opened file view → cells view = Ok sol → wells view = Fail f →
     init_from_restart_file' es numcells = Fail f) ∧
  (∀ sol w,
     init_from_restart_file' es numcells = Ok (sol, w) ↔
     ∃ file view, opened file view ∧ cells view = Ok sol ∧ wells view = Ok w).
Proof.
  intros step filename opened cells wells.
  assert (∀ file view, opened file view →
            init_from_restart_file' es numcells =
            (sol ← cells view; w ← wells view; mret (sol, w))) as Hseq.
  { intros file view [Hopen Hview].
    apply (init_from_restart_file_opened es numcells file view Hopen Hview). }
  split; [|split].
  - intros file view f Hop Hc. rewrite (Hseq file view Hop), Hc. reflexivity.
  - intros file view sol f Hop Hc Hw.
    rewrite (Hseq file view Hop), Hc; simpl. rewrite Hw. reflexivity.
  - intros sol w. split.
    + intros H.
      assert (∃ file view, opened file view) as (file & view & Hop).
      { unfold init_from_restart_file in H. fold step filename in H.
        unfold opened.
        destruct (ecl_file_open filename) as [file|]; [|discriminate].
        exists file. destruct (getUNIFIN (getIOConfig es)).
        - destruct (ecl_file_select_rstblock_report_step file step) as [view|];
            [exists view; auto | discriminate].
        - exists file; auto. }
      exists file, view. split; [exact Hop|].
      rewrite (Hseq file view Hop) in H.
      destruct (cells view) as [s|]; simpl in H; [|discriminate].
      destruct (wells view) as [w'|]; simpl in H; [|discriminate].
      injection H as -> ->. auto.
    + intros (file & view & Hop & Hc & Hw).
      rewrite (Hseq file view Hop), Hc; simpl. rewrite Hw. reflexivity.
Qed.

(** C9: the conversion table is chosen by one test, whether the deck unit
    system is METRIC.  For every other unit system of the enumeration,
    FIELD and LAB alike, the table is [field2si], and the cell fields are
    extracted with it. *)
Theorem init_from_restart_file_field_table (es : EclipseState) (numcells : Z)
    (file view : ecl_file_type) :
  let step := getRestartStep (getInitConfig es) in
  let filename :=
    getRestartFileName (getIOConfig es) (getRestartRootName (getInitConfig es))
      step false in
  getType (getDeckUnitSystem es) ≠ UNIT_TYPE_METRIC →
  ecl_file_open filename = Some file →
  (if getUNIFIN (getIOConfig es)
   then ecl_file_select_rstblock_report_step file step = Some view
   else view = file) →
  select_conv_table metric2si field2si (getType (getDeckUnitSystem es)) = field2si ∧
  init_from_restart_file' es numcells =
    (sol ← restoreSOLUTION float_to_double to_si view numcells field2si;
     wells ← restoreOPM_XWEL view (numWells (getSchedule es) step)
               (getNumPhases (getTableManager es));
     mret (sol, wells)).
Proof.
  intros step filename Hu Hopen Hview.
  assert (select_conv_table metric2si field2si (getType (getDeckUnitSystem es))
          = field2si) as E.
  { unfold select_conv_table. destruct (decide _); [contradiction | reflexivity]. }
  split; [exact E|].
  rewrite (init_from_restart_file_opened es numcells file view Hopen Hview).
  rewrite E. reflexivity.
Qed.

(** *** Further properties of restoreSOLUTION *)

Ltac in_names := unfold mandatory_keys; cbn [app]; repeat constructor.

Lemma bind_ext {A B : Type} (m : result A) (k1 k2 : A → result B) :
  (∀ a, k1 a = k2 a) → m ≫= k1 = m ≫= k2.
Proof. intros H. destruct m; simpl; auto. Qed.

Lemma iget_header (file : ecl_file_type) (name : string) (i : nat) (k : ecl_kw) :
  ecl_file_iget_named_kw file name i = Ok k → ecl_kw_get_header k = name.
Proof.
  unfold ecl_file_iget_named_kw.
  destruct (named_kws file name !! i) as [k'|] eqn:Hi; [|discriminate].
  intros [= <-]. apply list_elem_of_lookup_2 in Hi.
  unfold named_kws in Hi. apply list_elem_of_filter in Hi as [Hh _]. exact Hh.
Qed.

Lemma has_kw_as_iget (file : ecl_file_type) (name : string) :
  ecl_file_has_kw file name =
  match ecl_file_iget_named_kw file name 0 with Ok _ => true | Fail _ => false end.
Proof.
  unfold ecl_file_has_kw, ecl_file_iget_named_kw.
  destruct (named_kws file name); reflexivity.
Qed.

(** A fetch behind a presence test can only stop on the element type. *)
Lemma new_keyword_Fail (file : ecl_file_type) (nm : string) (f : failure) :
  ecl_file_has_kw file nm = true →
  new_keyword file nm = Fail f → f = abort_wrong_type nm.
Proof.
  intros [k Hk]%has_kw_iget. unfold new_keyword. rewrite Hk; simpl.
  unfold ecl_kw_get_float_ptr.
  destruct (ecl_kw_get_data k); simpl; [discriminate|].
  rewrite (iget_header _ _ _ _ Hk). congruence.
Qed.

Lemma new_keyword_values (file : ecl_file_type) (nm : string) (kw : keyword) :
  new_keyword file nm = Ok kw →
  keyword_values float_to_double kw = Ok (float_to_double <$> keyword_data kw).
Proof.
  intros (_ & Hsize & _)%new_keyword_inv. unfold keyword_values.
  rewrite Hsize. apply vector_from_range_whole.
Qed.

Lemma check_present_Fail (file : ecl_file_type) (keys : list string) (f : failure) :
  check_present file keys = Fail f →
  ∃ key, key ∈ keys ∧ ecl_file_has_kw file key = false ∧
         f = runtime_error (missing_keyword_message key).
Proof.
  induction keys as [|key keys IH]; simpl; [discriminate|].
  destruct (ecl_file_has_kw file key) eqn:Hkey; simpl.
  - intros (k & Hin & Hk)%IH. exists k. split; [right; exact Hin | exact Hk].
  - intros [= <-]. exists key. split; [left | auto].
Qed.

Lemma check_present_Ok (file : ecl_file_type) (keys : list string) :
  check_present file keys = Ok tt →
  Forall (λ key, ecl_file_has_kw file key = true) keys.
Proof.
  induction keys as [|key keys IH]; simpl; [constructor|].
  destruct (ecl_file_has_kw file key) eqn:Hkey; simpl; [|discriminate].
  intros H. constructor; auto.
Qed.

Lemma check_sizes_Fail (kws : list (@keyword cfloat cdouble)) (numcells : Z)
    (f : failure) :
  check_sizes kws numcells = Fail f →
  ∃ kw, kw ∈ kws ∧ keyword_size kw ≠ numcells ∧
        f = runtime_error (mismatch_message (keyword_name kw)).
Proof.
  induction kws as [|kw kws IH]; simpl; [discriminate|].
  destruct (Z.eqb_spec (keyword_size kw) numcells) as [E|N]; simpl.
  - intros (k & Hin & Hk)%IH. exists k. split; [right; exact Hin | exact Hk].
  - intros [= <-]. exists kw. split; [left | auto].
Qed.

Lemma restore_optional_Fail (file : ecl_file_type) (name : string)
    (k : data.Solution.key) (sol : Solution) (f : failure) :
  restore_optional float_to_double file name k sol = Fail f →
  ecl_file_has_kw file name = true ∧ f = abort_wrong_type name.
Proof.
  unfold restore_optional.
  destruct (ecl_file_has_kw file name) eqn:Hhas; [|discriminate].
  destruct (new_keyword file name) as [kw|f'] eqn:Hkw; simpl.
  - rewrite (new_keyword_values _ _ _ Hkw). discriminate.
  - intros [= <-]. split; [reflexivity|]. exact (new_keyword_Fail _ _ _ Hhas Hkw).
Qed.

(** The three kinds of failure of cell-field extraction. *)
Lemma restoreSOLUTION_failure_cases (file : ecl_file_type) (numcells : Z)
    (tbl : conv_table) (f : failure) :
  restoreSOLUTION float_to_double to_si file numcells tbl = Fail f →
  (∃ key, key ∈ mandatory_keys ∧ ecl_file_has_kw file key = false ∧
          f = runtime_error (missing_keyword_message key)) ∨
  (∃ name xs, name ∈ mandatory_keys ∧ record_floats file name = Ok xs ∧
              Z.of_nat (length xs) ≠ numcells ∧
              f = runtime_error (mismatch_message name)) ∨
  (∃ name, name ∈ mandatory_keys ++ ["RS"; "RV"] ∧
           ecl_file_has_kw file name = true ∧ f = abort_wrong_type name).
Proof.
  intros H.
  unfold restoreSOLUTION in H.
    destruct (check_present file mandatory_keys) as [[]|f0] eqn:Hpresent;
      cbn [mbind result_bind] in H.
    2: { injection H as <-. left. exact (check_present_Fail _ _ _ Hpresent). }
    pose proof (check_present_Ok _ _ Hpresent) as Hman.
    unfold mandatory_keys in Hman.
    apply Forall_cons in Hman as [Hp Hman]. apply Forall_cons in Hman as [Ht Hman].
    apply Forall_cons in Hman as [Hs Hman]. apply Forall_cons in Hman as [Hg _].
    assert (∀ nm, nm ∈ mandatory_keys ++ ["RS"; "RV"] →
              ecl_file_has_kw file nm = true → ∀ f', new_keyword file nm = Fail f' →
              ∃ name, name ∈ mandatory_keys ++ ["RS"; "RV"] ∧
                      ecl_file_has_kw file name = true ∧ f' = abort_wrong_type name)
      as Htype.
    { intros nm Hin Hhas f' Hf'. exists nm.
      split; [exact Hin|]. split; [exact Hhas|].
      exact (new_keyword_Fail _ _ _ Hhas Hf'). }
    destruct (new_keyword file "PRESSURE") as [kp|f0] eqn:Kp;
      cbn [mbind result_bind] in H.
    2: { injection H as <-. right; right.
         apply (Htype "PRESSURE"); [unfold mandatory_keys; simpl; repeat constructor | assumption..]. }
    destruct (new_keyword file "TEMP") as [kt|f0] eqn:Kt;
      cbn [mbind result_bind] in H.
    2: { injection H as <-. right; right.
         apply (Htype "TEMP"); [unfold mandatory_keys; simpl; repeat constructor | assumption..]. }
    destruct (new_keyword file "SWAT") as [ks|f0] eqn:Ks;
      cbn [mbind result_bind] in H.
    2: { injection H as <-. right; right.
         apply (Htype "SWAT"); [unfold mandatory_keys; simpl; repeat constructor | assumption..]. }
    destruct (new_keyword file "SGAS") as [kg|f0] eqn:Kg;
      cbn [mbind result_bind] in H.
    2: { injection H as <-. right; right.
         apply (Htype "SGAS"); [unfold mandatory_keys; simpl; repeat constructor | assumption..]. }
    destruct (check_sizes [kp; kt; ks; kg] numcells) as [[]|f0] eqn:Hsizes;
      cbn [mbind result_bind] in H.
    2: { injection H as <-. right; left.
         destruct (check_sizes_Fail _ _ _ Hsizes) as (kw & Hin & Hne & ->).
         assert (∃ nm, nm ∈ mandatory_keys ∧ new_keyword file nm = Ok kw)
           as (nm & Hnm & Hkw).
         { unfold mandatory_keys.
           repeat (apply elem_of_cons in Hin as [->|Hin]);
             [ exists "PRESSURE" | exists "TEMP" | exists "SWAT" | exists "SGAS"
             | inversion Hin ];
             (split; [repeat constructor | assumption]). }
         destruct (new_keyword_inv _ _ _ Hkw) as (Hxs & Hsize & Hname).
         exists nm, (keyword_data kw). rewrite Hname.
         repeat split; [exact Hnm | exact Hxs | congruence]. }
    rewrite (new_keyword_values _ _ _ Kp), (new_keyword_values _ _ _ Kt),
      (new_keyword_values _ _ _ Ks), (new_keyword_values _ _ _ Kg) in H.
    cbn [mbind result_bind] in H.
    destruct (restore_optional _ _ "RS" _ _) as [s1|f0] eqn:Hrs;
      cbn [mbind result_bind] in H.
    2: { injection H as <-. right; right. exists "RS".
         destruct (restore_optional_Fail _ _ _ _ _ Hrs) as [Hhas ->].
         split; [unfold mandatory_keys; simpl; repeat constructor | auto]. }
    destruct (restore_optional _ _ "RV" _ _) as [s2|f0] eqn:Hrv;
      cbn [mbind result_bind] in H; [discriminate|].
    injection H as <-. right; right. exists "RV".
    destruct (restore_optional_Fail _ _ _ _ _ Hrv) as [Hhas ->].
    split; [unfold mandatory_keys; simpl; repeat constructor | auto].
Qed.

(** X1: every way in which cell-field extraction fails.  It is the
    missing-keyword error for a mandatory record that is absent, or the
    size-mismatch error for a mandatory record whose size is not
    [numcells], or the record library refusing one of the six records
    because it is not stored at single precision.  The extraction never
    reads outside a record and never fetches a record that is absent. *)
Theorem restoreSOLUTION_failures (file : ecl_file_type) (numcells : Z)
    (tbl : conv_table) (f : failure) :
  restoreSOLUTION float_to_double to_si file numcells tbl = Fail f →
  ((∃ key, key ∈ mandatory_keys ∧ ecl_file_has_kw file key = false ∧
           f = runtime_error (missing_keyword_message key)) ∨
   (∃ name xs, name ∈ mandatory_keys ∧ record_floats file name = Ok xs ∧
               Z.of_nat (length xs) ≠ numcells ∧
               f = runtime_error (mismatch_message name)) ∨
   (∃ name, name ∈ mandatory_keys ++ ["RS"; "RV"] ∧
            ecl_file_has_kw file name = true ∧ f = abort_wrong_type name)) ∧
  f ≠ out_of_bounds ∧
  (∀ name, f ≠ abort_no_such_kw name).
Proof.
  intros H. pose proof (restoreSOLUTION_failure_cases _ _ _ _ H) as Hcases.
  split; [exact Hcases|].
  split.
  - destruct Hcases as [(? & _ & _ & ->)|[(? & ? & _ & _ & _ & ->)|(? & _ & _ & ->)]];
      discriminate.
  - intros name.
    destruct Hcases as [(? & _ & _ & ->)|[(? & ? & _ & _ & _ & ->)|(? & _ & _ & ->)]];
      discriminate.
Qed.

(** X2: which stores cell-field extraction accepts.  It returns a
    Solution exactly when each of the four mandatory records is in the
    store at single precision with [numcells] values and each of RS and
    RV, if the store has it, is at single precision; nothing else about
    the store, and nothing about the conversion table, matters. *)
Theorem restoreSOLUTION_accepts_iff (file : ecl_file_type) (numcells : Z)
    (tbl : conv_table) :
  (∃ sol, restoreSOLUTION float_to_double to_si file numcells tbl = Ok sol) ↔
  (∀ name, name ∈ mandatory_keys →
     ∃ xs, record_floats file name = Ok xs ∧ Z.of_nat (length xs) = numcells) ∧
  (∀ name, name ∈ ["RS"; "RV"] → ecl_file_has_kw file name = true →
     ∃ xs, record_floats file name = Ok xs).
Proof.
  split.
  - intros (sol & (ps & ts & ss & gs & s1 & Hp & Ht & Hs & Hg & Lp & Lt & Ls & Lg
                   & H1 & H2)%restoreSOLUTION_Ok_inv).
    split.
    + intros name Hin. unfold mandatory_keys in Hin.
      repeat (apply elem_of_cons in Hin as [->|Hin]);
        [ | | | | inversion Hin ]; eauto.
    + intros name Hin Hhas.
      repeat (apply elem_of_cons in Hin as [->|Hin]); [ | | inversion Hin ].
      * apply restore_optional_inv in H1 as [[E _]|[_ (xs & Hxs & _)]];
          [congruence | eauto].
      * apply restore_optional_inv in H2 as [[E _]|[_ (xs & Hxs & _)]];
          [congruence | eauto].
  - intros [Hman Hopt].
    destruct (Hman "PRESSURE") as (ps & Hp & Lp); [in_mandatory|].
    destruct (Hman "TEMP") as (ts & Ht & Lt); [in_mandatory|].
    destruct (Hman "SWAT") as (ss & Hs & Ls); [in_mandatory|].
    destruct (Hman "SGAS") as (gs & Hg & Lg); [in_mandatory|].
    rewrite (restoreSOLUTION_present _ numcells tbl _ _ _ _ Hp Ht Hs Hg).
    rewrite Lp, Lt, Ls, Lg, Z.eqb_refl. cbn [negb].
    assert (∀ name k sol, name ∈ ["RS"; "RV"] →
              ∃ sol', restore_optional float_to_double file name k sol = Ok sol')
      as Hstep.
    { intros name k sol Hin.
      destruct (ecl_file_has_kw file name) eqn:Hhas.
      - destruct (Hopt name Hin Hhas) as [xs Hxs].
        rewrite (restore_optional_present _ _ _ _ _ Hxs). eauto.
      - rewrite (restore_optional_absent _ _ _ _ Hhas). eauto. }
    destruct (Hstep "RS" data.Solution.RS
                (mandatory_solution float_to_double to_si tbl ps ts ss gs))
      as [s1 ->]; [repeat constructor|].
    cbn [mbind result_bind].
    apply Hstep. repeat constructor.
Qed.

(** Two Solutions that may differ under PRESSURE and TEMP only. *)
Lemma restore_optional_same_elsewhere (file : ecl_file_type) (name : string)
    (k : data.Solution.key) (sol1 sol2 : Solution) :
  (∀ j, j ≠ data.Solution.PRESSURE → j ≠ data.Solution.TEMP →
        sol1 !! j = sol2 !! j) →
  match restore_optional float_to_double file name k sol1,
        restore_optional float_to_double file name k sol2 with
  | Ok s1, Ok s2 =>
      ∀ j, j ≠ data.Solution.PRESSURE → j ≠ data.Solution.TEMP →
           s1 !! j = s2 !! j
  | Fail f1, Fail f2 => f1 = f2
  | _, _ => False
  end.
Proof.
  intros Hsame. unfold restore_optional.
  destruct (ecl_file_has_kw file name); [|exact Hsame].
  destruct (new_keyword file name) as [kw|f]; cbn [mbind result_bind];
    [|reflexivity].
  destruct (keyword_values float_to_double kw) as [v|f]; cbn [mbind result_bind];
    [|reflexivity].
  intros j Hp Ht. destruct (decide (k = j)) as [->|Hne].
  - rewrite !lookup_insert_eq. reflexivity.
  - rewrite !lookup_insert_ne by exact Hne. auto.
Qed.

Lemma restoreSOLUTION_two_tables (file : ecl_file_type) (numcells : Z)
    (tbl1 tbl2 : conv_table) :
  match restoreSOLUTION float_to_double to_si file numcells tbl1,
        restoreSOLUTION float_to_double to_si file numcells tbl2 with
  | Ok s1, Ok s2 =>
      ∀ j, j ≠ data.Solution.PRESSURE → j ≠ data.Solution.TEMP →
           s1 !! j = s2 !! j
  | Fail f1, Fail f2 => f1 = f2
  | _, _ => False
  end.
Proof.
  unfold restoreSOLUTION.
  destruct (check_present file mandatory_keys); cbn [mbind result_bind];
    [|reflexivity].
  destruct (new_keyword file "PRESSURE") as [kp|]; cbn [mbind result_bind];
    [|reflexivity].
  destruct (new_keyword file "TEMP") as [kt|]; cbn [mbind result_bind];
    [|reflexivity].
  destruct (new_keyword file "SWAT") as [ks|]; cbn [mbind result_bind];
    [|reflexivity].
  destruct (new_keyword file "SGAS") as [kg|]; cbn [mbind result_bind];
    [|reflexivity].
  destruct (check_sizes _ numcells); cbn [mbind result_bind]; [|reflexivity].
  destruct (keyword_values float_to_double kp) as [vp|]; cbn [mbind result_bind];
    [|reflexivity].
  destruct (keyword_values float_to_double kt) as [vt|]; cbn [mbind result_bind];
    [|reflexivity].
  destruct (keyword_values float_to_double ks) as [vs|]; cbn [mbind result_bind];
    [|reflexivity].
  destruct (keyword_values float_to_double kg) as [vg|]; cbn [mbind result_bind];
    [|reflexivity].
  match goal with
  | |- match restore_optional _ _ _ _ ?a ≫= _ with _ => _ end =>
      match goal with
      | |- match _ with
           | Ok _ => match restore_optional _ _ _ _ ?b ≫= _ with _ => _ end
           | Fail _ => _
           end =>
          pose proof (restore_optional_same_elsewhere file "RS"
                        data.Solution.RS a b) as Hrs
      end
  end.
  lapply Hrs.
  2: { intros j Hp Ht. rewrite !lookup_alter_ne by congruence. reflexivity. }
  clear Hrs. intros Hrs.
  destruct (restore_optional _ _ "RS" _ _) as [s1|f1];
    destruct (restore_optional _ _ "RS" _ _) as [s2|f2];
    cbn [mbind result_bind]; try contradiction; [|exact Hrs].
  pose proof (restore_optional_same_elsewhere file "RV" data.Solution.RV
                s1 s2 Hrs) as Hrv.
  destruct (restore_optional _ _ "RV" _ s1) as [r1|g1];
    destruct (restore_optional _ _ "RV" _ s2) as [r2|g2];
    cbn [mbind result_bind]; try contradiction; exact Hrv.
Qed.

(** X3: the conversion table reaches the PRESSURE and TEMP entries and
    nothing else.  With two tables the extraction fails on the same
    stores with the same failure, and where it returns, the two Solutions
    agree under every other key (SWAT, SGAS, RS, RV). *)
Theorem restoreSOLUTION_table_reach (file : ecl_file_type) (numcells : Z)
    (tbl1 tbl2 : conv_table) :
  (∀ f, restoreSOLUTION float_to_double to_si file numcells tbl1 = Fail f ↔
        restoreSOLUTION float_to_double to_si file numcells tbl2 = Fail f) ∧
  (∀ sol1 sol2,
     restoreSOLUTION float_to_double to_si file numcells tbl1 = Ok sol1 →
     restoreSOLUTION float_to_double to_si file numcells tbl2 = Ok sol2 →
     ∀ k, k ≠ data.Solution.PRESSURE → k ≠ data.Solution.TEMP →
          sol1 !! k = sol2 !! k).
Proof.
  pose proof (restoreSOLUTION_two_tables file numcells tbl1 tbl2) as H.
  destruct (restoreSOLUTION float_to_double to_si file numcells tbl1) as [s1|f1];
    destruct (restoreSOLUTION float_to_double to_si file numcells tbl2) as [s2|f2];
    try contradiction.
  - split; [intros f; split; discriminate|].
    intros ? ? [= <-] [= <-]. exact H.
  - subst f2. split; [reflexivity | discriminate].
Qed.

(** X4: the extraction looks at the first record under each of the six
    names PRESSURE, TEMP, SWAT, SGAS, RS, RV and at nothing else in the
    store: two stores with the same first record (or none) under each of
    these names give the same result, failures included. *)
Theorem restoreSOLUTION_first_records (file1 file2 : ecl_file_type)
    (numcells : Z) (tbl : conv_table) :
  (∀ name, name ∈ mandatory_keys ++ ["RS"; "RV"] →
     ecl_file_iget_named_kw file1 name 0 = ecl_file_iget_named_kw file2 name 0) →
  restoreSOLUTION float_to_double to_si file1 numcells tbl
  = restoreSOLUTION float_to_double to_si file2 numcells tbl.
Proof.
  intros Hsame.
  assert (∀ name, name ∈ mandatory_keys ++ ["RS"; "RV"] →
            ecl_file_has_kw file1 name = ecl_file_has_kw file2 name) as Hhas.
  { intros name Hin. rewrite !has_kw_as_iget, (Hsame name Hin). reflexivity. }
  assert (∀ name, name ∈ mandatory_keys ++ ["RS"; "RV"] →
            new_keyword file1 name = new_keyword file2 name) as Hnew.
  { intros name Hin. unfold new_keyword. rewrite (Hsame name Hin). reflexivity. }
  assert (∀ name k sol, name ∈ mandatory_keys ++ ["RS"; "RV"] →
            restore_optional float_to_double file1 name k sol
            = restore_optional float_to_double file2 name k sol) as Hopt.
  { intros name k sol Hin. unfold restore_optional.
    rewrite (Hhas name Hin), (Hnew name Hin). reflexivity. }
  assert (check_present file1 mandatory_keys = check_present file2 mandatory_keys)
    as Hpresent.
  { unfold mandatory_keys in *. cbn [check_present].
    rewrite !Hhas by (cbn [app]; repeat constructor). reflexivity. }
  unfold restoreSOLUTION. rewrite Hpresent.
  apply bind_ext; intros _.
  rewrite (Hnew "PRESSURE") by in_names. apply bind_ext; intros pres.
  rewrite (Hnew "TEMP") by in_names. apply bind_ext; intros temp.
  rewrite (Hnew "SWAT") by in_names. apply bind_ext; intros swat.
  rewrite (Hnew "SGAS") by in_names. apply bind_ext; intros sgas.
  apply bind_ext; intros _.
  apply bind_ext; intros vp. apply bind_ext; intros vt.
  apply bind_ext; intros vs. apply bind_ext; intros vg.
  cbv zeta.
  rewrite (Hopt "RS") by in_names. apply bind_ext; intros s1.
  rewrite (Hopt "RV") by in_names. reflexivity.
Qed.

(** *** Further properties of restoreOPM_XWEL *)


Lemma vector_from_range_Fail {A : Type} (conv : A → cdouble) (buf : list A)
    (first last : Z) (f : failure) :
  vector_from_range conv buf first last = Fail f → f = out_of_bounds.
Proof.
  unfold vector_from_range. destruct (_ && _); [discriminate | congruence].
Qed.

(** The five windows, when they all lie inside the record. *)
Lemma restoreOPM_XWEL_in_range (file : ecl_file_type) (W P : Z)
    (xs : list cdouble) :
  record_doubles file "OPM_XWEL" = Ok xs →
  0 ≤ W → 0 ≤ W * P → 2 * W + W * P ≤ Z.of_nat (length xs) →
  let w := Z.to_nat W in
  let wp := Z.to_nat (W * P) in
  let h := Z.to_nat ((Z.of_nat (length xs) - 2 * W - W * P) / 2) in
  restoreOPM_XWEL file W P =
  Ok {| data.bhp := take w xs;
        data.perf_pressure := take h (drop (w + w + wp) xs);
        data.perf_rate := take h (drop (w + w + wp + h) xs);
        data.temperature := take w (drop w xs);
        data.well_rate := take wp (drop (w + w) xs) |}.
Proof.
  intros (k & Hk & Hxs & Hsize)%record_doubles_inv HW HWP HN w wp h.
  set (R := Z.of_nat (length xs) - 2 * W - W * P) in *.
  assert (0 ≤ R) as HR by (unfold R; lia).
  assert (R ÷ 2 = R / 2) as Hquot by (apply Z.quot_div_nonneg; lia).
  pose proof (Z.div_mod R 2 ltac:(lia)) as Hdm.
  pose proof (Z.mod_pos_bound R 2 ltac:(lia)) as Hmod.
  unfold restoreOPM_XWEL. rewrite Hk; simpl. rewrite Hxs; simpl.
  rewrite Hsize, !Z.add_0_l.
  replace (Z.of_nat (length xs) - (W + W + W * P)) with R by (unfold R; lia).
  rewrite Hquot.
  rewrite !vector_from_range_in by lia. simpl.
  rewrite !list_fmap_id.
  repeat f_equal; unfold w, wp, h; lia.
Qed.





(** The three kinds of failure of well-field extraction. *)
Lemma restoreOPM_XWEL_failure_cases (file : ecl_file_type) (W P : Z) (f : failure) :
  restoreOPM_XWEL file W P = Fail f →
  (ecl_file_has_kw file "OPM_XWEL" = false ∧ f = abort_no_such_kw "OPM_XWEL") ∨
  (ecl_file_has_kw file "OPM_XWEL" = true ∧ f = abort_wrong_type "OPM_XWEL") ∨
  (∃ xs, record_doubles file "OPM_XWEL" = Ok xs ∧ f = out_of_bounds).
Proof.
  intros H.
  destruct (ecl_file_has_kw file "OPM_XWEL") eqn:Hhas.
    - right. destruct (proj1 (has_kw_iget _ _) Hhas) as [k Hk].
      unfold restoreOPM_XWEL in H. rewrite Hk in H; simpl in H.
      destruct (ecl_kw_get_double_ptr k) as [xs|f0] eqn:Hptr; simpl in H.
      + right. exists xs. split.
        * unfold record_doubles. rewrite Hk; simpl. exact Hptr.
        * repeat match type of H with
                 | (vector_from_range ?c ?b ?x ?y ≫= _) = _ =>
                     let E := fresh "E" in
                     destruct (vector_from_range c b x y) eqn:E; simpl in H;
                     [|injection H as <-;
                       exact (vector_from_range_Fail _ _ _ _ _ E)]
                 end.
          discriminate.
      + left. split; [reflexivity|]. injection H as <-.
        unfold ecl_kw_get_double_ptr in Hptr.
        destruct (ecl_kw_get_data k); [|discriminate].
        rewrite (iget_header _ _ _ _ Hk) in Hptr. congruence.
    - left. split; [reflexivity|].
      unfold restoreOPM_XWEL in H. rewrite (no_kw_iget _ _ Hhas) in H.
      simpl in H. congruence.
Qed.

(** X6: every way in which well-field extraction fails.  The record is
    absent or is not stored at double precision, and the record library
    stops the call; or a window leaves the record.  The extraction never
    throws an exception of its own. *)
Theorem restoreOPM_XWEL_failures (file : ecl_file_type) (W P : Z) (f : failure) :
  restoreOPM_XWEL file W P = Fail f →
  ((ecl_file_has_kw file "OPM_XWEL" = false ∧ f = abort_no_such_kw "OPM_XWEL") ∨
   (ecl_file_has_kw file "OPM_XWEL" = true ∧ f = abort_wrong_type "OPM_XWEL") ∨
   (∃ xs, record_doubles file "OPM_XWEL" = Ok xs ∧ f = out_of_bounds)) ∧
  (∀ msg, f ≠ runtime_error msg).
Proof.
  intros H. pose proof (restoreOPM_XWEL_failure_cases _ _ _ _ H) as Hcases.
  split; [exact Hcases|]. intros msg.
  destruct Hcases as [[_ ->]|[[_ ->]|(? & _ & ->)]]; discriminate.
Qed.


(** X8: the layout read back.  If the OPM_XWEL record is five lists one
    after the other, of [W], [W], [W*P], [K] and [K] values, followed by
    at most one more value, well-field extraction returns exactly these
    five lists; the value behind them is dropped. *)
Theorem restoreOPM_XWEL_concat (file : ecl_file_type) (W P : Z)
    (bhp temp rate pp pr rest : list cdouble) :
  record_doubles file "OPM_XWEL" = Ok (bhp ++ temp ++ rate ++ pp ++ pr ++ rest) →
  Z.of_nat (length bhp) = W →
  Z.of_nat (length temp) = W →
  Z.of_nat (length rate) = W * P →
  length pp = length pr →
  (length rest ≤ 1)%nat →
  restoreOPM_XWEL file W P =
  Ok {| data.bhp := bhp;
        data.perf_pressure := pp;
        data.perf_rate := pr;
        data.temperature := temp;
        data.well_rate := rate |}.
Proof.
  intros Hxs Lb Lt Lr Lp Lrest.
  set (xs := bhp ++ temp ++ rate ++ pp ++ pr ++ rest) in *.
  assert (Z.of_nat (length xs)
          = 2 * W + W * P + (2 * Z.of_nat (length pp) + Z.of_nat (length rest)))
    as HN by (unfold xs; rewrite !length_app; lia).
  rewrite (restoreOPM_XWEL_in_range file W P xs Hxs) by lia.
  assert (Z.to_nat W = length bhp) as -> by lia.
  assert (Z.to_nat (W * P) = length rate) as -> by lia.
  assert (Z.to_nat ((Z.of_nat (length xs) - 2 * W - W * P) / 2) = length pp) as ->.
  { replace (Z.of_nat (length xs) - 2 * W - W * P)
      with (2 * Z.of_nat (length pp) + Z.of_nat (length rest)) by lia.
    assert ((2 * Z.of_nat (length pp) + Z.of_nat (length rest)) / 2
            = Z.of_nat (length pp)) as ->; [|lia].
    symmetry. apply (Z.div_unique _ 2 _ (Z.of_nat (length rest))); lia. }
  assert (length temp = length bhp) as Etb by lia.
  unfold xs. rewrite <- !drop_drop.
  rewrite (take_app_length bhp), !(drop_app_length bhp).
  rewrite <- Etb. rewrite (take_app_length temp), !(drop_app_length temp).
  rewrite (take_app_length rate), !(drop_app_length rate).
  rewrite (take_app_length pp), !(drop_app_length pp).
  rewrite Lp, (take_app_length pr). reflexivity.
Qed.

(** *** Further properties of init_from_restart_file *)


(** X9: every way in which the read fails.  The file is not there; or it
    is a unified file without a block for the restart step; or the store
    is open and the cell-field extraction fails; or the cell fields are
    extracted and the well-field extraction fails.  The first two are
    exceptions of the read itself, with the file name (and the step) in
    the message; the other two are the extractor's failure. *)
Theorem init_from_restart_file_failures (es : EclipseState) (numcells : Z)
    (f : failure) :
  let step := getRestartStep (getInitConfig es) in
  let filename :=
    getRestartFileName (getIOConfig es) (getRestartRootName (getInitConfig es))
      step false in
  let opened (file view : ecl_file_type) :=
    ecl_file_open filename = Some file ∧
    (if getUNIFIN (getIOConfig es)
     then ecl_file_select_rstblock_report_step file step = Some view
     else view = file) in
  let cells (view : ecl_file_type) :=
    restoreSOLUTION float_to_double to_si view numcells
      (select_conv_table metric2si field2si (getType (getDeckUnitSystem es))) in
  let wells (view : ecl_file_type) :=
    restoreOPM_XWEL view (numWells (getSchedule es) step)
      (getNumPhases (getTableManager es)) in
  init_from_restart_file' es numcells = Fail f ↔
  (ecl_file_open filename = None ∧
   f = runtime_error ("Restart file " +:+ filename +:+ " not found!")) ∨
  (∃ file, ecl_file_open filename = Some file ∧
           getUNIFIN (getIOConfig es) = true ∧
           ecl_file_select_rstblock_report_step file step = None ∧
           f = runtime_error ("Restart file " +:+ filename
                              +:+ " does not contain data for report step "
                              +:+ pretty step +:+ "!")) ∨
  (∃ file view, opened file view ∧ cells view = Fail f) ∨
  (∃ file view sol, opened file view ∧ cells view = Ok sol ∧ wells view = Fail f).
Proof.
  intros step filename opened cells wells.
  assert (∀ file view, opened file view →
            init_from_restart_file' es numcells =
            (sol ← cells view; w ← wells view; mret (sol, w))) as Hseq.
  { intros file view [Hopen Hview].
    apply (init_from_restart_file_opened es numcells file view Hopen Hview). }
  split.
  - intros H.
    assert (ecl_file_open filename = None ∨
            ∃ file, ecl_file_open filename = Some file) as [Hopen|[file Hopen]]
      by (destruct (ecl_file_open filename); eauto).
    { left. split; [exact Hopen|].
      unfold init_from_restart_file in H. fold step filename in H.
      rewrite Hopen in H. injection H as <-. reflexivity. }
    right.
    assert ((getUNIFIN (getIOConfig es) = true ∧
             ecl_file_select_rstblock_report_step file step = None) ∨
            ∃ view, opened file view) as [[Hu Hsel]|[view Hop]].
    { unfold opened. destruct (getUNIFIN (getIOConfig es)).
      - destruct (ecl_file_select_rstblock_report_step file step) as [view|];
          [right; exists view; auto | left; auto].
      - right. exists file. auto. }
    + left. exists file. split; [exact Hopen|]. split; [exact Hu|].
      split; [exact Hsel|].
      unfold init_from_restart_file in H. fold step filename in H.
      rewrite Hopen, Hu, Hsel in H. injection H as <-. reflexivity.
    + right. rewrite (Hseq file view Hop) in H.
      destruct (cells view) as [sol|f0] eqn:Hc; simpl in H.
      * right. exists file, view, sol. split; [exact Hop|]. split; [exact Hc|].
        destruct (wells view) as [w|f1]; simpl in H; [discriminate | congruence].
      * left. exists file, view. split; [exact Hop | congruence].
  - intros [[Hopen ->]|[(file & Hopen & Hu & Hsel & ->)|
                        [(file & view & Hop & Hc)|(file & view & sol & Hop & Hc & Hw)]]].
    + unfold init_from_restart_file. fold step filename. rewrite Hopen. reflexivity.
    + unfold init_from_restart_file. fold step filename.
      rewrite Hopen, Hu, Hsel. reflexivity.
    + rewrite (Hseq file view Hop), Hc. reflexivity.
    + rewrite (Hseq file view Hop), Hc; simpl. rewrite Hw. reflexivity.
Qed.



(** X12: the deck unit system reaches PRESSURE and TEMP only.  Two decks
    that differ in nothing but the unit system fail together, with the
    same failure; and where both reads return, the well fields are equal
    and the Solutions agree under every key other than PRESSURE and
    TEMP. *)
Theorem init_from_restart_file_unit_system (es1 es2 : EclipseState)
    (numcells : Z) :
  getInitConfig es1 = getInitConfig es2 →
  getIOConfig es1 = getIOConfig es2 →
  getSchedule es1 = getSchedule es2 →
  getTableManager es1 = getTableManager es2 →
  (∀ f, init_from_restart_file' es1 numcells = Fail f ↔
        init_from_restart_file' es2 numcells = Fail f) ∧
  (∀ sol1 wells1 sol2 wells2,
     init_from_restart_file' es1 numcells = Ok (sol1, wells1) →
     init_from_restart_file' es2 numcells = Ok (sol2, wells2) →
     wells1 = wells2 ∧
     ∀ k, k ≠ data.Solution.PRESSURE → k ≠ data.Solution.TEMP →
          sol1 !! k = sol2 !! k).
Proof.
  intros Hinit Hio Hsched Htab.
  unfold init_from_restart_file. rewrite Hinit, Hio, Hsched, Htab.
  destruct (ecl_file_open _) as [file|]; [|split; [reflexivity | discriminate]].
  set (view := if getUNIFIN (getIOConfig es2) then _ else _).
  destruct view as [v|f0]; cbn [mbind result_bind];
    [|split; [reflexivity | discriminate]].
  pose proof (restoreSOLUTION_two_tables v numcells
                (select_conv_table metric2si field2si (getType (getDeckUnitSystem es1)))
                (select_conv_table metric2si field2si (getType (getDeckUnitSystem es2))))
    as Htables.
  destruct (restoreSOLUTION _ _ v numcells
              (select_conv_table _ _ (getType (getDeckUnitSystem es1)))) as [s1|f1];
    destruct (restoreSOLUTION _ _ v numcells
                (select_conv_table _ _ (getType (getDeckUnitSystem es2)))) as [s2|f2];
    try contradiction; cbn [mbind result_bind].
  - destruct (restoreOPM_XWEL v _ _) as [w|fw]; cbn [mbind result_bind].
    + split; [intros f; split; discriminate|].
      intros ? ? ? ? [= <- <-] [= <- <-]. auto.
    + split; [reflexivity | discriminate].
  - subst f2. split; [reflexivity | discriminate].
Qed.

End Properties.

(** ** The properties on the concrete world *)

(** C1: the code at a well-state record that is too short.  With one well
    and one phase the first three windows take 2*1 + 1*1 = 3 values; on
    a record of one value the call ends in a read outside the record.
    It does not end in a size-mismatch exception. *)
Theorem restoreOPM_XWEL_short_record_out_of_bounds :
  record_doubles Example.store_short_xwel "OPM_XWEL" = Ok [10] ∧
  restoreOPM_XWEL Example.store_short_xwel 1 1 = Fail out_of_bounds.
Proof. split; reflexivity. Qed.

(** Fourteen values for two wells and three phases: two perforations. *)
Example xwel_14_values :
  restoreOPM_XWEL Example.store 2 3 = Ok Example.wells.
Proof. reflexivity. Qed.

(** A fifteenth value leaves an odd remainder of five: the perforation
    fields keep two values each and the last value is in no field. *)
Example xwel_15_values :
  restoreOPM_XWEL
    (Example.cells ++
     [Example.double_kw "OPM_XWEL"
        [10; 11; 12; 13; 14; 15; 16; 17; 18; 19; 20; 21; 22; 23; 24]]) 2 3
  = Ok Example.wells.
Proof. reflexivity. Qed.

Lemma restoreOPM_XWEL_slices_witness :
  record_doubles Example.store "OPM_XWEL"
    = Ok [10; 11; 12; 13; 14; 15; 16; 17; 18; 19; 20; 21; 22; 23] ∧
  ∃ wells rest,
    restoreOPM_XWEL Example.store 2 3 = Ok wells ∧
    [10; 11; 12; 13; 14; 15; 16; 17; 18; 19; 20; 21; 22; 23]
      = data.bhp wells ++ data.temperature wells ++ data.well_rate wells
        ++ data.perf_pressure wells ++ data.perf_rate wells ++ rest ∧
    Z.of_nat (length (data.bhp wells)) = 2 ∧
    Z.of_nat (length (data.temperature wells)) = 2 ∧
    Z.of_nat (length (data.well_rate wells)) = 2 * 3 ∧
    Z.of_nat (length (data.perf_pressure wells)) = (14 - 2 * 2 - 2 * 3) / 2 ∧
    Z.of_nat (length (data.perf_rate wells)) = (14 - 2 * 2 - 2 * 3) / 2 ∧
    Z.of_nat (length rest) = (14 - 2 * 2 - 2 * 3) mod 2.
Proof.
  split; [reflexivity|].
  apply (restoreOPM_XWEL_slices Example.store 2 3
           [10; 11; 12; 13; 14; 15; 16; 17; 18; 19; 20; 21; 22; 23]);
    [reflexivity | lia | lia | simpl; lia].
Defined.

Lemma restoreSOLUTION_unit_conversion_witness :
  restoreSOLUTION Z.of_nat Example.to_si Example.store 2 Example.field2si
    = Ok Example.solution ∧
  ∃ pres temp swat sgas,
    record_floats Example.store "PRESSURE" = Ok pres ∧
    record_floats Example.store "TEMP" = Ok temp ∧
    record_floats Example.store "SWAT" = Ok swat ∧
    record_floats Example.store "SGAS" = Ok sgas ∧
    Example.solution !! data.Solution.PRESSURE
      = Some ((λ x, Example.to_si Example.field2si conversions.pressure (Z.of_nat x))
              <$> pres) ∧
    Example.solution !! data.Solution.TEMP
      = Some ((λ x, Example.to_si Example.field2si conversions.temperature (Z.of_nat x))
              <$> temp) ∧
    Example.solution !! data.Solution.SWAT = Some (Z.of_nat <$> swat) ∧
    Example.solution !! data.Solution.SGAS = Some (Z.of_nat <$> sgas).
Proof.
  split; [reflexivity|].
  apply (restoreSOLUTION_unit_conversion Z.of_nat Example.to_si
           Example.store 2 Example.field2si Example.solution).
  reflexivity.
Defined.

Lemma restoreSOLUTION_mandatory_lengths_witness :
  restoreSOLUTION Z.of_nat Example.to_si Example.store 2 Example.field2si
    = Ok Example.solution ∧
  ∀ k, k ∈ [data.Solution.PRESSURE; data.Solution.TEMP;
            data.Solution.SWAT; data.Solution.SGAS] →
       ∃ v, Example.solution !! k = Some v ∧ Z.of_nat (length v) = 2.
Proof.
  split; [reflexivity|].
  apply (restoreSOLUTION_mandatory_lengths Z.of_nat Example.to_si
           Example.store 2 Example.field2si Example.solution).
  reflexivity.
Defined.

Lemma restoreSOLUTION_missing_keyword_witness :
  ("SGAS" ∈ mandatory_keys ∧ ecl_file_has_kw Example.store_no_sgas "SGAS" = false) ∧
  ∃ pre key post,
    mandatory_keys = pre ++ key :: post ∧
    Forall (λ k, ecl_file_has_kw Example.store_no_sgas k = true) pre ∧
    ecl_file_has_kw Example.store_no_sgas key = false ∧
    restoreSOLUTION Z.of_nat Example.to_si Example.store_no_sgas 2 Example.field2si
      = Fail (runtime_error (missing_keyword_message key)).
Proof.
  assert ("SGAS" ∈ mandatory_keys ∧
          ecl_file_has_kw Example.store_no_sgas "SGAS" = false) as H
    by (split; [unfold mandatory_keys; repeat constructor | reflexivity]).
  split; [exact H|].
  apply (restoreSOLUTION_missing_keyword Z.of_nat Example.to_si
           Example.store_no_sgas 2 Example.field2si).
  exists "SGAS". exact H.
Defined.

(** The size-mismatch error on the reference case: a PRESSURE record of
    99 values when 100 cells are expected. *)
Example pressure_99_of_100 :
  restoreSOLUTION Z.of_nat Example.to_si (Example.store_pressure 99) 100
    Example.field2si
  = Fail (runtime_error
            "Restart file: Could not restore PRESSURE, mismatched number of cells").
Proof. reflexivity. Qed.

(** The presence test comes first: with a PRESSURE record of the wrong
    size and no SGAS record, the error is the missing keyword. *)
Example mismatch_behind_missing_keyword :
  restoreSOLUTION Z.of_nat Example.to_si
    (Example.float_kw "PRESSURE" [1]%nat :: tail Example.store_no_sgas) 2
    Example.field2si
  = Fail (runtime_error "Read of restart file: File does not contain SGAS data").
Proof. reflexivity. Qed.

(** A mandatory record stored at double precision stops the call in the
    record library, before any size is compared. *)
Example mismatch_behind_wrong_type :
  restoreSOLUTION Z.of_nat Example.to_si
    (Example.double_kw "PRESSURE" [1] :: tail Example.store) 2
    Example.field2si
  = Fail (abort_wrong_type "PRESSURE").
Proof. reflexivity. Qed.

(** C6 as stated fails: no error value [SizeMismatchError name expected
    actual] from which the two counts can be read back describes the
    failures of the reader.  A PRESSURE record of 99 values and one of 98
    values, both against 100 cells, end in the same error. *)
Lemma size_mismatch_error_carries_no_counts :
  ¬ ∃ SizeMismatchError : string → Z → Z → failure,
      (∀ name e a e' a',
         SizeMismatchError name e a = SizeMismatchError name e' a' →
         e = e' ∧ a = a') ∧
      ∀ (file : list (@ecl_kw_type nat Z)) (numcells : Z) name xs,
        name ∈ mandatory_keys →
        record_floats file name = Ok xs →
        Z.of_nat (length xs) ≠ numcells →
        restoreSOLUTION Z.of_nat Example.to_si file numcells Example.field2si
        = Fail (SizeMismatchError name numcells (Z.of_nat (length xs))).
Proof.
  intros (E & Hinj & Hclaim).
  assert ("PRESSURE" ∈ mandatory_keys) as Hin
    by (unfold mandatory_keys; repeat constructor).
  pose proof (Hclaim (Example.store_pressure 99) 100 "PRESSURE"
                (replicate 99 1%nat) Hin eq_refl) as H99.
  pose proof (Hclaim (Example.store_pressure 98) 100 "PRESSURE"
                (replicate 98 1%nat) Hin eq_refl) as H98.
  rewrite length_replicate in H99, H98.
  specialize (H99 ltac:(lia)). specialize (H98 ltac:(lia)).
  rewrite pressure_99_of_100 in H99.
  assert (E "PRESSURE" 100 (Z.of_nat 99) = E "PRESSURE" 100 (Z.of_nat 98)) as Heq.
  { change (restoreSOLUTION Z.of_nat Example.to_si (Example.store_pressure 98) 100
              Example.field2si)
      with (@Fail (gmap data.Solution.key (list Z))
              (runtime_error
                 "Restart file: Could not restore PRESSURE, mismatched number of cells"))
      in H98.
    congruence. }
  apply Hinj in Heq as [_ Heq]. lia.
Qed.

Lemma restoreSOLUTION_size_mismatch_witness :
  ((∀ name, name ∈ mandatory_keys →
      ∃ xs, record_floats (Example.store_pressure 99) name = Ok xs) ∧
   (∃ name xs, name ∈ mandatory_keys ∧
      record_floats (Example.store_pressure 99) name = Ok xs ∧
      Z.of_nat (length xs) ≠ 100)) ∧
  ∃ pre name post xs,
    mandatory_keys = pre ++ name :: post ∧
    Forall (λ n, ∃ ys, record_floats (Example.store_pressure 99) n = Ok ys ∧
                       Z.of_nat (length ys) = 100) pre ∧
    record_floats (Example.store_pressure 99) name = Ok xs ∧
    Z.of_nat (length xs) ≠ 100 ∧
    restoreSOLUTION Z.of_nat Example.to_si (Example.store_pressure 99) 100
      Example.field2si
    = Fail (runtime_error (mismatch_message name)).
Proof.
  assert (∀ name, name ∈ mandatory_keys →
            ∃ xs, record_floats (Example.store_pressure 99) name = Ok xs) as Hall.
  { intros name Hin. unfold mandatory_keys in Hin.
    repeat (apply elem_of_cons in Hin as [->|Hin]);
      [ | | | | inversion Hin ]; eexists; reflexivity. }
  assert (∃ name xs, name ∈ mandatory_keys ∧
            record_floats (Example.store_pressure 99) name = Ok xs ∧
            Z.of_nat (length xs) ≠ 100) as Hbad.
  { exists "PRESSURE", (replicate 99 1%nat).
    split; [unfold mandatory_keys; repeat constructor|].
    split; [reflexivity|]. rewrite length_replicate. lia. }
  split; [split; assumption|].
  exact (restoreSOLUTION_size_mismatch Z.of_nat Example.to_si
           (Example.store_pressure 99) 100 Example.field2si Hall Hbad).
Defined.

Lemma restoreSOLUTION_optional_fields_witness :
  restoreSOLUTION Z.of_nat Example.to_si Example.store 2 Example.field2si
    = Ok Example.solution ∧
  (is_Some (Example.solution !! data.Solution.RS)
   ↔ ecl_file_has_kw Example.store "RS" = true) ∧
  (is_Some (Example.solution !! data.Solution.RV)
   ↔ ecl_file_has_kw Example.store "RV" = true) ∧
  ecl_file_has_kw Example.store "RS" = false ∧
  restoreSOLUTION Z.of_nat Example.to_si Example.store_rs 2 Example.field2si
    = Ok (<[data.Solution.RS := [9; 9; 9]]> Example.solution).
Proof.
  assert (restoreSOLUTION Z.of_nat Example.to_si Example.store 2 Example.field2si
          = Ok Example.solution) as Hok by reflexivity.
  destruct (restoreSOLUTION_optional_fields Z.of_nat Example.to_si
              Example.store 2 Example.field2si Example.solution Hok)
    as (Hrs & Hrv & _ & _ & Hadd & _).
  split; [exact Hok|]. split; [exact Hrs|]. split; [exact Hrv|].
  split; [reflexivity|].
  exact (Hadd [9; 9; 9]%nat eq_refl).
Defined.

Lemma restoreOPM_XWEL_missing_record_witness :
  ecl_file_has_kw Example.cells "OPM_XWEL" = false ∧
  restoreOPM_XWEL Example.cells 2 3 = Fail (abort_no_such_kw "OPM_XWEL") ∧
  ∀ msg, restoreOPM_XWEL Example.cells 2 3 ≠ Fail (runtime_error msg).
Proof.
  split; [reflexivity|].
  apply (restoreOPM_XWEL_missing_record Example.cells 2 3). reflexivity.
Defined.

Lemma init_from_restart_file_propagates_witness :
  Example.ecl_file_open "CASE.X3" = Some Example.store ∧
  Example.ecl_file_select_rstblock_report_step Example.store 3 = Some Example.store ∧
  Example.init_from_restart_file (Example.deck true UNIT_TYPE_FIELD) 100
    = Fail (runtime_error (mismatch_message "PRESSURE")) ∧
  Example.init_from_restart_file (Example.deck true UNIT_TYPE_FIELD) 2
    = Ok (Example.solution, Example.wells).
Proof.
  destruct (init_from_restart_file_propagates Z.of_nat Example.to_si
              Example.metric2si Example.field2si Example.ecl_file_open
              Example.ecl_file_select_rstblock_report_step
              (Example.deck true UNIT_TYPE_FIELD) 100) as (Hcells & _ & _).
  destruct (init_from_restart_file_propagates Z.of_nat Example.to_si
              Example.metric2si Example.field2si Example.ecl_file_open
              Example.ecl_file_select_rstblock_report_step
              (Example.deck true UNIT_TYPE_FIELD) 2) as (_ & _ & Hboth).
  split; [reflexivity|]. split; [reflexivity|]. split.
  - apply (Hcells Example.store Example.store); [split; reflexivity | reflexivity].
  - apply Hboth. exists Example.store, Example.store.
    split; [split; reflexivity|]. split; reflexivity.
Defined.

Lemma init_from_restart_file_field_table_witness :
  UNIT_TYPE_LAB ≠ UNIT_TYPE_METRIC ∧
  Example.ecl_file_open "CASE.X3" = Some Example.store ∧
  select_conv_table Example.metric2si Example.field2si UNIT_TYPE_LAB
    = Example.field2si ∧
  Example.init_from_restart_file (Example.deck false UNIT_TYPE_LAB) 2
    = (sol ← restoreSOLUTION Z.of_nat Example.to_si Example.store 2 Example.field2si;
       wells ← restoreOPM_XWEL Example.store 2 3;
       mret (sol, wells)).
Proof.
  assert (UNIT_TYPE_LAB ≠ UNIT_TYPE_METRIC) as Hne by discriminate.
  split; [exact Hne|]. split; [reflexivity|].
  exact (init_from_restart_file_field_table Z.of_nat Example.to_si
           Example.metric2si Example.field2si Example.ecl_file_open
           Example.ecl_file_select_rstblock_report_step
           (Example.deck false UNIT_TYPE_LAB) 2 Example.store Example.store
           Hne eq_refl eq_refl).
Defined.

(** *** The further properties on the concrete world *)

Lemma restoreSOLUTION_failures_witness :
  restoreSOLUTION Z.of_nat Example.to_si (Example.store_pressure 99) 100
    Example.field2si
  = Fail (runtime_error (mismatch_message "PRESSURE")) ∧
  runtime_error (mismatch_message "PRESSURE") ≠ out_of_bounds ∧
  (∀ name, runtime_error (mismatch_message "PRESSURE") ≠ abort_no_such_kw name).
Proof.
  split; [reflexivity|].
  apply (restoreSOLUTION_failures Z.of_nat Example.to_si
           (Example.store_pressure 99) 100 Example.field2si).
  reflexivity.
Defined.

Lemma restoreSOLUTION_accepts_iff_witness :
  (∀ name, name ∈ mandatory_keys →
     ∃ xs, record_floats Example.store name = Ok xs ∧ Z.of_nat (length xs) = 2) ∧
  (∀ name, name ∈ ["RS"; "RV"] → ecl_file_has_kw Example.store name = true →
     ∃ xs, record_floats Example.store name = Ok xs).
Proof.
  apply (proj1 (restoreSOLUTION_accepts_iff Z.of_nat Example.to_si
                  Example.store 2 Example.field2si)).
  exists Example.solution. reflexivity.
Defined.

Lemma restoreSOLUTION_table_reach_witness :
  restoreSOLUTION Z.of_nat Example.to_si Example.store 2 Example.field2si
    = Ok Example.solution ∧
  restoreSOLUTION Z.of_nat Example.to_si Example.store 2 Example.metric2si
    = Ok (mandatory_solution Z.of_nat Example.to_si Example.metric2si
            [1; 2]%nat [3; 4]%nat [5; 6]%nat [7; 8]%nat) ∧
  ∀ k, k ≠ data.Solution.PRESSURE → k ≠ data.Solution.TEMP →
       Example.solution !! k
       = mandatory_solution Z.of_nat Example.to_si Example.metric2si
           [1; 2]%nat [3; 4]%nat [5; 6]%nat [7; 8]%nat !! k.
Proof.
  split; [reflexivity|]. split; [reflexivity|].
  apply (proj2 (restoreSOLUTION_table_reach Z.of_nat Example.to_si
                  Example.store 2 Example.field2si Example.metric2si));
    reflexivity.
Defined.

Lemma restoreSOLUTION_first_records_witness :
  restoreSOLUTION Z.of_nat Example.to_si Example.store 2 Example.field2si
  = restoreSOLUTION Z.of_nat Example.to_si
      (Example.store ++ [Example.float_kw "PRESSURE" [0]%nat;
                         Example.double_kw "PORO" [1; 2; 3]])
      2 Example.field2si.
Proof.
  apply (restoreSOLUTION_first_records Z.of_nat Example.to_si).
  intros name Hin. unfold mandatory_keys in Hin. cbn [app] in Hin.
  repeat (apply elem_of_cons in Hin as [->|Hin]); [..|inversion Hin];
    reflexivity.
Defined.


Lemma restoreOPM_XWEL_failures_witness :
  restoreOPM_XWEL Example.cells 2 3 = Fail (abort_no_such_kw "OPM_XWEL") ∧
  ∀ msg, abort_no_such_kw "OPM_XWEL" ≠ runtime_error msg.
Proof.
  split; [reflexivity|].
  apply (restoreOPM_XWEL_failures Example.cells 2 3). reflexivity.
Defined.


Lemma restoreOPM_XWEL_concat_witness :
  record_doubles
    (Example.cells ++
     [Example.double_kw "OPM_XWEL"
        [10; 11; 12; 13; 14; 15; 16; 17; 18; 19; 20; 21; 22; 23; 24]])
    "OPM_XWEL"
  = Ok ([10; 11] ++ [12; 13] ++ [14; 15; 16; 17; 18; 19] ++ [20; 21]
        ++ [22; 23] ++ [24]) ∧
  restoreOPM_XWEL
    (Example.cells ++
     [Example.double_kw "OPM_XWEL"
        [10; 11; 12; 13; 14; 15; 16; 17; 18; 19; 20; 21; 22; 23; 24]]) 2 3
  = Ok {| data.bhp := [10; 11];
          data.perf_pressure := [20; 21];
          data.perf_rate := [22; 23];
          data.temperature := [12; 13];
          data.well_rate := [14; 15; 16; 17; 18; 19] |}.
Proof.
  split; [reflexivity|].
  apply (restoreOPM_XWEL_concat _ 2 3 [10; 11] [12; 13] [14; 15; 16; 17; 18; 19]
           [20; 21] [22; 23] [24]);
    [reflexivity | reflexivity | reflexivity | reflexivity | reflexivity
    | simpl; lia].
Defined.

Lemma init_from_restart_file_failures_witness :
  Example.ecl_file_open "OTHER.X3" = None ∧
  init_from_restart_file Z.of_nat Example.to_si Example.metric2si Example.field2si
    Example.ecl_file_open Example.ecl_file_select_rstblock_report_step
    (Example.deck_of "OTHER" 2) 2
  = Fail (runtime_error "Restart file OTHER.X3 not found!").
Proof.
  split; [reflexivity|].
  apply (proj2 (init_from_restart_file_failures Z.of_nat Example.to_si
                  Example.metric2si Example.field2si Example.ecl_file_open
                  Example.ecl_file_select_rstblock_report_step
                  (Example.deck_of "OTHER" 2) 2
                  (runtime_error "Restart file OTHER.X3 not found!"))).
  left. split; reflexivity.
Defined.



Lemma init_from_restart_file_unit_system_witness :
  Example.init_from_restart_file (Example.deck true UNIT_TYPE_FIELD) 2
    = Ok (Example.solution, Example.wells) ∧
  ∀ sol2 wells2,
    Example.init_from_restart_file (Example.deck true UNIT_TYPE_METRIC) 2
      = Ok (sol2, wells2) →
    Example.wells = wells2 ∧
    ∀ k, k ≠ data.Solution.PRESSURE → k ≠ data.Solution.TEMP →
         Example.solution !! k = sol2 !! k.
Proof.
  split; [reflexivity|].
  intros sol2 wells2.
  apply (proj2 (init_from_restart_file_unit_system Z.of_nat Example.to_si
                  Example.metric2si Example.field2si Example.ecl_file_open
                  Example.ecl_file_select_rstblock_report_step
                  (Example.deck true UNIT_TYPE_FIELD)
                  (Example.deck true UNIT_TYPE_METRIC) 2
                  eq_refl eq_refl eq_refl eq_refl)).
  reflexivity.
Defined.
